(** * MCP-to-Skill converter: generator and executor

    A shallow embedding of [mcp_to_skill.py] (the generator) and of
    [skills/trello/executor.py] (the executor it emits), with the
    properties of the specification proved or refuted on it.

    Python values are modelled as follows.
    - JSON documents ([json.load] results) are the inductive type [json];
      a Python [dict] is an association list in insertion order.
    - A Python [int] is a [Z]; a Python [float] is a binary64 primitive
      float, so the savings figure is computed here exactly as CPython
      computes it.
    - A raised exception is the left injection of a sum. *)

From Stdlib Require Import ZArith Uint63 PrimFloat SpecFloat FloatOps.
From Stdlib Require Import List String Ascii Bool Lia.
From Stdlib Require Import DecimalString DecimalZ DecimalFacts.
From stdpp Require Import base strings gmap list.

Open Scope string_scope.
Open Scope list_scope.
Open Scope Z_scope.

(** ** Exceptions and the error monad *)

Module Py.

Inductive exn : Type :=
| ValueError (msg : string)
| TypeError
| KeyError (key : string)
| AttributeError
| ZeroDivisionError
| OverflowError
| JSONDecodeError
| FileNotFoundError (path : string)
| TransportFailure (msg : string).

Definition result (A : Type) : Type := (exn + A)%type.

Definition ret {A} (a : A) : result A := inr a.
Definition raise {A} (e : exn) : result A := inl e.

Definition bind {A B} (m : result A) (k : A -> result B) : result B :=
  match m with
  | inl e => inl e
  | inr a => k a
  end.

End Py.

Import Py.

Notation "'let*' x ':=' m 'in' k" := (Py.bind m (fun x => k))
  (at level 10, x pattern, m at level 100, k at level 200).

(** ** Python numbers *)

Module Num.

(** [float(z)] for an integer that binary64 represents exactly
    (|z| <= 2^53); every integer converted below is in that range. *)
Definition float_of_int (z : Z) : float :=
  if 0 <=? z then of_uint63 (Uint63.of_Z z)
  else PrimFloat.opp (of_uint63 (Uint63.of_Z (- z))).

(** [a / b] on two Python ints: true division, correctly rounded. *)
Definition truediv (a b : Z) : result float :=
  if b =? 0 then raise ZeroDivisionError
  else ret (PrimFloat.div (float_of_int a) (float_of_int b)).

(** [int(x)] on a float: truncation toward zero. *)
Definition int_of_float (x : float) : result Z :=
  match Prim2SF x with
  | S754_zero _ => ret 0
  | S754_finite s m e =>
      let a := if 0 <=? e then Z.pos m * 2 ^ e else Z.pos m / 2 ^ (- e) in
      ret (if s then - a else a)
  | S754_infinity _ => raise OverflowError
  | S754_nan => raise (ValueError "cannot convert float NaN to integer")
  end.

(** [str(z)] for an int: decimal digits with a leading minus sign. *)
Definition str_of_int (z : Z) : string :=
  DecimalString.NilZero.string_of_int (Z.to_int z).

End Num.

(** ** Text and paths *)

Module Text.

Definition dq : string := String (ascii_of_nat 34) EmptyString.
Definition nl : string := String (ascii_of_nat 10) EmptyString.

(** [dir / name] on paths. *)
Definition path_join (dir name : string) : string := dir +:+ "/" +:+ name.

End Text.

(** ** JSON documents and the Python operations applied to them *)

Module Json.

(** What [json.load] returns. A [dict] keeps its keys in insertion
    order. Numbers are the integers; the configurations handled here
    carry strings, arrays and objects. *)
Inductive json : Type :=
| JNull
| JBool (b : bool)
| JInt (z : Z)
| JStr (s : string)
| JArr (items : list json)
| JObj (fields : list (string * json)).

Definition dict : Type := list (string * json).

(** [d.get(k)] as an option. *)
Fixpoint dict_get (k : string) (d : dict) : option json :=
  match d with
  | [] => None
  | (k', v) :: rest => if String.eqb k k' then Some v else dict_get k rest
  end.

(** [d[k] = v]: an existing key keeps its position, a new key goes last. *)
Fixpoint dict_set (k : string) (v : json) (d : dict) : dict :=
  match d with
  | [] => [(k, v)]
  | (k', v') :: rest =>
      if String.eqb k k' then (k, v) :: rest else (k', v') :: dict_set k v rest
  end.

(** [d.get(k, default)] on a dict. *)
Definition dict_get_default (k : string) (default : json) (d : dict) : json :=
  match dict_get k d with
  | Some v => v
  | None => default
  end.

(** [needle in hay] on two strings: substring test. *)
Fixpoint str_contains (needle hay : string) : bool :=
  String.prefix needle hay
  || match hay with
     | EmptyString => false
     | String _ rest => str_contains needle rest
     end.

(** [x == s] for a JSON value [x] and a string [s]. *)
Definition eq_str (x : json) (s : string) : bool :=
  match x with
  | JStr t => String.eqb t s
  | _ => false
  end.

(** [k in x]: key membership on a dict, element membership on a list,
    substring on a string, [TypeError] on the scalars. *)
Definition contains (k : string) (x : json) : result bool :=
  match x with
  | JObj d => ret (match dict_get k d with Some _ => true | None => false end)
  | JArr items => ret (existsb (fun v => eq_str v k) items)
  | JStr s => ret (str_contains k s)
  | JNull | JBool _ | JInt _ => raise TypeError
  end.

(** [x[k]] with a string key. *)
Definition getitem (x : json) (k : string) : result json :=
  match x with
  | JObj d =>
      match dict_get k d with
      | Some v => ret v
      | None => raise (KeyError k)
      end
  | _ => raise TypeError
  end.

(** [x[k] = v] with a string key; the updated object is returned. *)
Definition setitem (x : json) (k : string) (v : json) : result json :=
  match x with
  | JObj d => ret (JObj (dict_set k v d))
  | _ => raise TypeError
  end.

(** [x.items()]. *)
Definition items (x : json) : result dict :=
  match x with
  | JObj d => ret d
  | _ => raise AttributeError
  end.

(** [x.get(k, default)]. *)
Definition get (x : json) (k : string) (default : json) : result json :=
  match x with
  | JObj d => ret (dict_get_default k default d)
  | _ => raise AttributeError
  end.

Definition is_obj (x : json) : bool :=
  match x with
  | JObj _ => true
  | _ => false
  end.

End Json.

Import Json.

(** ** The text form of JSON: [json.dumps(v, indent=2)] and [json.loads]

    A model of the two library functions on the documents of type
    [json]: numbers are integers and characters are the code points
    below 256, which [json.dumps] writes in ASCII. A number with a
    fraction or an exponent, and an escape above [ÿ], are rejected
    here although the library reads them. *)

Module PyJson.
Import Text.

(** *** Writing *)

Definition hex_char (n : N) : ascii :=
  ascii_of_N (if (n <? 10)%N then 48 + n else 87 + n)%N.

(** One character inside a string literal: the short escapes, the
    printable ASCII characters as they are, [\u00XX] for the rest. *)
Definition escape_char (c : ascii) : string :=
  let n := N_of_ascii c in
  if (n =? 34)%N then "\" +:+ dq
  else if (n =? 92)%N then "\\"
  else if (n =? 10)%N then "\n"
  else if (n =? 13)%N then "\r"
  else if (n =? 9)%N then "\t"
  else if (n =? 8)%N then "\b"
  else if (n =? 12)%N then "\f"
  else if ((32 <=? n) && (n <=? 126))%N then String c EmptyString
  else "\u00" +:+ String (hex_char (n / 16)) (String (hex_char (n mod 16)) EmptyString).

Fixpoint escape (s : string) : string :=
  match s with
  | EmptyString => EmptyString
  | String c rest => escape_char c +:+ escape rest
  end.

Definition print_string (s : string) : string := dq +:+ escape s +:+ dq.

Fixpoint spaces (n : nat) : string :=
  match n with
  | O => EmptyString
  | S n => String " " (spaces n)
  end.

(** The line break before an item at indentation [ind]. *)
Definition newline (ind : nat) : string := nl +:+ spaces ind.

Section Containers.
Variable pr : json -> string.
Variable ind : nat.

(** What follows the first element of an array: the other elements,
    each after a comma, then the closing bracket on its own line. *)
Fixpoint tail_elems (xs : list json) : string :=
  match xs with
  | [] => newline ind +:+ "]"
  | x :: xs => "," +:+ newline (ind + 2) +:+ pr x +:+ tail_elems xs
  end.

Definition print_member (m : string * json) : string :=
  print_string (fst m) +:+ ": " +:+ pr (snd m).

Fixpoint tail_members (ms : list (string * json)) : string :=
  match ms with
  | [] => newline ind +:+ "}"
  | m :: ms => "," +:+ newline (ind + 2) +:+ print_member m +:+ tail_members ms
  end.

End Containers.

Fixpoint print (ind : nat) (v : json) : string :=
  match v with
  | JNull => "null"
  | JBool true => "true"
  | JBool false => "false"
  | JInt z => Num.str_of_int z
  | JStr s => print_string s
  | JArr [] => "[]"
  | JArr (x :: xs) =>
      "[" +:+ newline (ind + 2) +:+ print (ind + 2) x
      +:+ tail_elems (print (ind + 2)) ind xs
  | JObj [] => "{}"
  | JObj (m :: ms) =>
      "{" +:+ newline (ind + 2) +:+ print_member (print (ind + 2)) m
      +:+ tail_members (print (ind + 2)) ind ms
  end.

(** [json.dumps(v, indent=2)]. *)
Definition dumps (v : json) : string := print 0 v.

(** *** Reading *)

Definition is_ws (c : ascii) : bool :=
  let n := N_of_ascii c in
  ((n =? 32) || (n =? 10) || (n =? 13) || (n =? 9))%N.

Fixpoint skip_ws (s : string) : string :=
  match s with
  | EmptyString => EmptyString
  | String c rest => if is_ws c then skip_ws rest else s
  end.

Definition is_digit (c : ascii) : bool :=
  let n := N_of_ascii c in ((48 <=? n) && (n <=? 57))%N.

Definition hex_value (c : ascii) : option N :=
  let n := N_of_ascii c in
  if ((48 <=? n) && (n <=? 57))%N then Some (n - 48)%N
  else if ((97 <=? n) && (n <=? 102))%N then Some (n - 87)%N
  else if ((65 <=? n) && (n <=? 70))%N then Some (n - 55)%N
  else None.

Definition hex4 (a b c d : ascii) : option N :=
  match hex_value a, hex_value b, hex_value c, hex_value d with
  | Some a, Some b, Some c, Some d => Some (((a * 16 + b) * 16 + c) * 16 + d)%N
  | _, _, _, _ => None
  end.

(** The character a short escape stands for. *)
Definition unescape (e : ascii) : option ascii :=
  let n := N_of_ascii e in
  if ((n =? 34) || (n =? 92) || (n =? 47))%N then Some e
  else if (n =? 110)%N then Some (ascii_of_N 10)
  else if (n =? 114)%N then Some (ascii_of_N 13)
  else if (n =? 116)%N then Some (ascii_of_N 9)
  else if (n =? 98)%N then Some (ascii_of_N 8)
  else if (n =? 102)%N then Some (ascii_of_N 12)
  else None.

Definition prepend (c : ascii) (r : option (string * string)) : option (string * string) :=
  match r with
  | Some (s, rest) => Some (String c s, rest)
  | None => None
  end.

(** The characters of a string literal after its opening quote, and
    the text after its closing quote. *)
Fixpoint parse_chars (s : string) : option (string * string) :=
  match s with
  | EmptyString => None
  | String c rest =>
      let n := N_of_ascii c in
      if (n =? 34)%N then Some (EmptyString, rest)
      else if (n =? 92)%N then
        match rest with
        | EmptyString => None
        | String e rest' =>
            match unescape e with
            | Some ch => prepend ch (parse_chars rest')
            | None =>
                if (N_of_ascii e =? 117)%N then
                  match rest' with
                  | String a (String b (String c' (String d rest''))) =>
                      match hex4 a b c' d with
                      | Some code =>
                          if (code <? 256)%N
                          then prepend (ascii_of_N code) (parse_chars rest'')
                          else None
                      | None => None
                      end
                  | _ => None
                  end
                else None
            end
        end
      else if (n <? 32)%N then None
      else prepend c (parse_chars rest)
  end.

Fixpoint span_digits (s : string) : string * string :=
  match s with
  | EmptyString => (EmptyString, EmptyString)
  | String c rest =>
      if is_digit c
      then let (d, r) := span_digits rest in (String c d, r)
      else (EmptyString, s)
  end.

(** A number is not followed by a digit, a fraction or an exponent. *)
Definition number_ends (rest : string) : bool :=
  match rest with
  | EmptyString => true
  | String c _ =>
      let n := N_of_ascii c in
      negb (is_digit c || (n =? 46) || (n =? 101) || (n =? 69))%N
  end.

Definition parse_number (s : string) : option (json * string) :=
  let (text, rest) :=
    match s with
    | String c r =>
        if (N_of_ascii c =? 45)%N
        then let (d, r') := span_digits r in (String c d, r')
        else span_digits s
    | EmptyString => (EmptyString, EmptyString)
    end in
  if number_ends rest then
    match NilZero.int_of_string text with
    | Some d => Some (JInt (Z.of_int d), rest)
    | None => None
    end
  else None.

(** [s] without the prefix [p]. *)
Fixpoint strip (p s : string) : option string :=
  match p, s with
  | EmptyString, _ => Some s
  | String a p', String b s' => if Ascii.eqb a b then strip p' s' else None
  | String _ _, EmptyString => None
  end.

Definition parse_literal (s : string) : option (json * string) :=
  match strip "null" s with
  | Some rest => Some (JNull, rest)
  | None =>
      match strip "true" s with
      | Some rest => Some (JBool true, rest)
      | None =>
          match strip "false" s with
          | Some rest => Some (JBool false, rest)
          | None => None
          end
      end
  end.

Inductive token : Type := TQuote | TOpenArr | TOpenObj | TNumber | TOther.

Definition classify (c : ascii) : token :=
  let n := N_of_ascii c in
  if (n =? 34)%N then TQuote
  else if (n =? 91)%N then TOpenArr
  else if (n =? 123)%N then TOpenObj
  else if (is_digit c || (n =? 45)%N) then TNumber
  else TOther.

(** [s] after the character of code [n], blanks skipped. *)
Definition expect (n : N) (s : string) : option string :=
  match skip_ws s with
  | String c rest => if (N_of_ascii c =? n)%N then Some rest else None
  | EmptyString => None
  end.

(** A member of an object: a string literal, a colon, a value. *)
Definition parse_member (pv : string -> option (json * string)) (s : string)
    : option ((string * json) * string) :=
  match expect 34 s with
  | None => None
  | Some s1 =>
      match parse_chars s1 with
      | None => None
      | Some (key, s2) =>
          match expect 58 s2 with
          | None => None
          | Some s3 =>
              match pv s3 with
              | None => None
              | Some (v, s4) => Some ((key, v), s4)
              end
          end
      end
  end.

(** The dict made of the members in the order read: a repeated key
    keeps its first position and takes the last value. *)
Definition dict_of (ms : list (string * json)) : dict :=
  fold_left (fun d m => dict_set (fst m) (snd m) d) ms [].

Fixpoint parse_value (fuel : nat) (s : string) : option (json * string) :=
  match fuel with
  | O => None
  | S f =>
      match skip_ws s with
      | EmptyString => None
      | String c rest =>
          match classify c with
          | TQuote =>
              match parse_chars rest with
              | Some (str, r) => Some (JStr str, r)
              | None => None
              end
          | TOpenArr =>
              match expect 93 rest with
              | Some r => Some (JArr [], r)
              | None =>
                  match parse_value f rest with
                  | None => None
                  | Some (x, r1) =>
                      match parse_tail_elems f r1 with
                      | None => None
                      | Some (xs, r2) => Some (JArr (x :: xs), r2)
                      end
                  end
              end
          | TOpenObj =>
              match expect 125 rest with
              | Some r => Some (JObj [], r)
              | None =>
                  match parse_member (parse_value f) rest with
                  | None => None
                  | Some (m, r1) =>
                      match parse_tail_members f r1 with
                      | None => None
                      | Some (ms, r2) => Some (JObj (dict_of (m :: ms)), r2)
                      end
                  end
              end
          | TNumber => parse_number (String c rest)
          | TOther => parse_literal (String c rest)
          end
      end
  end
with parse_tail_elems (fuel : nat) (s : string) : option (list json * string) :=
  match fuel with
  | O => None
  | S f =>
      match expect 93 s with
      | Some r => Some ([], r)
      | None =>
          match expect 44 s with
          | None => None
          | Some s1 =>
              match parse_value f s1 with
              | None => None
              | Some (x, r1) =>
                  match parse_tail_elems f r1 with
                  | None => None
                  | Some (xs, r2) => Some (x :: xs, r2)
                  end
              end
          end
      end
  end
with parse_tail_members (fuel : nat) (s : string)
    : option (list (string * json) * string) :=
  match fuel with
  | O => None
  | S f =>
      match expect 125 s with
      | Some r => Some ([], r)
      | None =>
          match expect 44 s with
          | None => None
          | Some s1 =>
              match parse_member (parse_value f) s1 with
              | None => None
              | Some (m, r1) =>
                  match parse_tail_members f r1 with
                  | None => None
                  | Some (ms, r2) => Some (m :: ms, r2)
                  end
              end
          end
      end
  end.

(** A text that starts with a value: its first character is neither a
    blank nor a closing bracket. *)
Definition starts_value (s : string) : bool :=
  match s with
  | EmptyString => false
  | String c _ =>
      let n := N_of_ascii c in
      (negb (is_ws c) && negb (n =? 93) && negb (n =? 125))%N
  end.

(** [json.loads(text)]: one value, then nothing but blanks. *)
Definition loads (text : string) : result json :=
  match parse_value (S (String.length text)) text with
  | Some (v, rest) =>
      match skip_ws rest with
      | EmptyString => ret v
      | String _ _ => raise JSONDecodeError
      end
  | None => raise JSONDecodeError
  end.

(** Distinct keys in every object, as in every Python dict. *)
Fixpoint distinct_keys (ks : list string) : bool :=
  match ks with
  | [] => true
  | k :: ks => negb (existsb (String.eqb k) ks) && distinct_keys ks
  end.

Fixpoint well_formed (v : json) : bool :=
  match v with
  | JArr xs => forallb well_formed xs
  | JObj ms =>
      distinct_keys (map fst ms) && forallb (fun m => well_formed (snd m)) ms
  | _ => true
  end.

End PyJson.

(** ** The JSON library as the program sees it *)

Module Lib.

(** [json.dump(v, f, indent=2)] / [json.dumps(v, indent=2)] and
    [json.load(f)] / [json.loads(text)]. *)
Class Codec : Type := {
  dumps : json -> string;
  loads : string -> result json
}.

(** What the program relies on: a loaded document has distinct keys in
    every object, and such a document, once written, is read back as
    itself. *)
Class CodecLaws (C : Codec) : Prop := {
  loads_well_formed :
    forall text v, loads text = inr v -> PyJson.well_formed v = true;
  loads_dumps :
    forall v, PyJson.well_formed v = true -> loads (dumps v) = inr v
}.

(** The model of the library given above. *)
Definition python_json : Codec :=
  {| dumps := PyJson.dumps; loads := PyJson.loads |}.

End Lib.

Import Lib.

(** ** Configuration parsing *)

Module Config.

(** Truth value of the optional [server_name] argument: [None] and the
    empty string are false. *)
Definition truthy (server_name : option string) : bool :=
  match server_name with
  | Some s => negb (String.eqb s "")
  | None => false
  end.

(** [name != server_name]. *)
Definition differs (name : string) (server_name : option string) : bool :=
  match server_name with
  | Some s => negb (String.eqb name s)
  | None => true
  end.

(** The loop of [parse_mcp_config] over [data["mcpServers"].items()]. *)
Fixpoint collect_servers (server_name : option string) (entries : dict)
    (servers : list json) : result (list json) :=
  match entries with
  | [] => ret servers
  | (name, config) :: rest =>
      if truthy server_name && differs name server_name
      then collect_servers server_name rest servers
      else
        let* config' := setitem config "name" (JStr name) in
        collect_servers server_name rest (servers ++ [config'])
  end.

Definition invalid_format : exn :=
  ValueError "Invalid config format. Expected 'mcpServers' or single server config.".

(** [parse_mcp_config] after [data = json.load(f)]. *)
Definition parse_mcp_config_data (data : json) (server_name : option string)
    : result (list json) :=
  let* has_servers := contains "mcpServers" data in
  if has_servers then
    let* table := getitem data "mcpServers" in
    let* entries := items table in
    collect_servers server_name entries []
  else
    let* has_command := contains "command" data in
    let* single :=
      (if has_command then ret true else contains "url" data) in
    if single then ret [data] else raise invalid_format.

(** [parse_mcp_config(config_path, server_name)]: the file is opened and
    parsed first. A missing file raises. *)
Definition parse_mcp_config `{Codec} (files : gmap string string)
    (config_path : string) (server_name : option string) : result (list json) :=
  match files !! config_path with
  | None => raise (FileNotFoundError config_path)
  | Some text =>
      let* data := loads text in
      parse_mcp_config_data data server_name
  end.



(** The record made of one entry of the [mcpServers] map. *)
Definition named (entry : string * json) : json :=
  match entry with
  | (key, JObj body) => JObj (dict_set "name" (JStr key) body)
  | (_, other) => other
  end.

(** The entries the loop keeps. *)
Definition kept (server_name : option string) (entry : string * json) : bool :=
  negb (truthy server_name && differs (fst entry) server_name).

End Config.

(** ** [repr] and [str] of a document *)

Module PyRepr.
Import Text.

Definition sq : ascii := ascii_of_nat 39.

Definition has_char (c : ascii) (s : string) : bool :=
  existsb (Ascii.eqb c) (list_ascii_of_string s).

(** The quote [repr] puts around a string: double when the string has
    a single quote and no double quote, single otherwise. *)
Definition repr_quote (s : string) : ascii :=
  if has_char sq s && negb (has_char (ascii_of_nat 34) s)
  then ascii_of_nat 34 else sq.

Definition hex2 (n : N) : string :=
  String (PyJson.hex_char (n / 16)) (String (PyJson.hex_char (n mod 16)) EmptyString).

(** One character of the [repr] of a string quoted with [q]. *)
Definition repr_char (q c : ascii) : string :=
  let n := N_of_ascii c in
  if (Ascii.eqb c q || (n =? 92)%N) then String (ascii_of_nat 92) (String c EmptyString)
  else if (n =? 9)%N then "\t"
  else if (n =? 10)%N then "\n"
  else if (n =? 13)%N then "\r"
  else if ((n <? 32) || (n =? 127))%N then "\x" +:+ hex2 n
  else if (n <? 127)%N then String c EmptyString
  else if ((n <=? 160) || (n =? 173))%N then "\x" +:+ hex2 n
  else String c EmptyString.

Fixpoint repr_chars (q : ascii) (s : string) : string :=
  match s with
  | EmptyString => EmptyString
  | String c rest => repr_char q c +:+ repr_chars q rest
  end.

Definition repr_str (s : string) : string :=
  let q := repr_quote s in
  String q (repr_chars q s +:+ String q EmptyString).

(** [repr(v)]. *)
Fixpoint py_repr (v : json) : string :=
  match v with
  | JNull => "None"
  | JBool true => "True"
  | JBool false => "False"
  | JInt z => Num.str_of_int z
  | JStr s => repr_str s
  | JArr xs => "[" +:+ String.concat ", " (map py_repr xs) +:+ "]"
  | JObj ms =>
      "{" +:+ String.concat ", "
                (map (fun m => repr_str (fst m) +:+ ": " +:+ py_repr (snd m)) ms)
      +:+ "}"
  end.

(** [str(v)], as an f-string applies it: a string is itself, anything
    else is its [repr]. *)
Definition py_str (v : json) : string :=
  match v with
  | JStr s => s
  | _ => py_repr v
  end.

End PyRepr.

(** ** Token budget of the generated document *)

Module Budget.

(** [int((1 - 5000/(tool_count * 500)) * 100)], the expression of the
    "Savings" line of [_generate_skill_md]. *)
Definition savings_percent (tool_count : Z) : result Z :=
  let* q := Num.truediv 5000 (tool_count * 500) in
  Num.int_of_float
    (PrimFloat.mul (PrimFloat.sub (Num.float_of_int 1) q) (Num.float_of_int 100)).




(** Truncation toward zero of the exact value. *)
Definition trunc_savings (tool_count : Z) : Z :=
  Z.quot (100 * tool_count - 1000) tool_count.

Definition savings_agrees (n : Z) : bool :=
  match savings_percent n with
  | inr r => r =? trunc_savings n
  | inl _ => false
  end.

Fixpoint range_agrees (fuel : nat) (lo : Z) : bool :=
  match fuel with
  | O => true
  | S f => savings_agrees lo && range_agrees f (lo + 1)
  end.

(** The catalog sizes on which the binary64 evaluation is checked
    against exact arithmetic. *)
Definition checked_bound : Z := 20000.

End Budget.

(** ** Files and standard output *)

Module World.
Import Budget Text.

(** The part of the machine the generator acts on: the files and the
    lines printed on standard output. *)
Record world : Type := {
  files : gmap string string;
  stdout : list string
}.

(** Computations that read and write the world and may raise; the world
    reached when an exception is raised is kept. *)
Definition M (A : Type) : Type := world -> result A * world.

Definition m_ret {A} (a : A) : M A := fun w => (inr a, w).

Definition m_bind {A B} (m : M A) (k : A -> M B) : M B :=
  fun w =>
    match m w with
    | (inl e, w') => (inl e, w')
    | (inr a, w') => k a w'
    end.

Definition lift {A} (r : result A) : M A := fun w => (r, w).

Definition print (line : string) : M unit :=
  fun w => (inr tt, {| files := files w; stdout := stdout w ++ [line] |}).

Definition write_text (path text : string) : M unit :=
  fun w => (inr tt, {| files := <[path := text]> (files w); stdout := stdout w |}).

Definition read_files : M (gmap string string) := fun w => (inr (files w), w).

End World.

Notation "'run*' x ':=' m 'in' k" := (World.m_bind m (fun x => k))
  (at level 10, x pattern, m at level 100, k at level 200).
Notation "m ';;*' k" := (World.m_bind m (fun _ => k))
  (at level 100, k at level 200, right associativity).

(** ** The generator: [MCPSkillGenerator] and [convert_mcp_to_skill] *)

Module Generator.
Import Budget Text PyRepr World.

(** A catalog entry as the generator handles it: the [name], the
    optional [description] and the [inputSchema] of a tool. *)
Record tool : Type := {
  tool_name : string;
  tool_description : option string;
  tool_inputSchema : json
}.

Record MCPSkillGenerator : Type := {
  mcp_config : dict;
  output_dir : string;
  server_name : json
}.

Definition __init__ (mcp_config : dict) (output_dir : string) : MCPSkillGenerator :=
  {| mcp_config := mcp_config;
     output_dir := output_dir;
     server_name := dict_get_default "name" (JStr "unnamed-mcp-server") mcp_config |}.

Definition _get_transport_type (self : MCPSkillGenerator) : string :=
  if eq_str (dict_get_default "type" JNull (mcp_config self)) "http"
  then "HTTP (" +:+ py_str (dict_get_default "url" (JStr "unknown") (mcp_config self)) +:+ ")"
  else "stdio (local process)".

(** The mock response of [_get_mcp_tools]. *)
Definition example_tool : tool :=
  {| tool_name := "example_tool";
     tool_description := Some "An example tool from the MCP server";
     tool_inputSchema :=
       JObj [("type", JStr "object");
             ("properties",
              JObj [("param1",
                     JObj [("type", JStr "string");
                           ("description", JStr "First parameter")])]);
             ("required", JArr [JStr "param1"])] |}.

Definition _get_mcp_tools (self : MCPSkillGenerator) : M (list tool) :=
  let command := dict_get_default "command" (JStr "") (mcp_config self) in
  print ("Introspecting MCP server: " +:+ py_str command) ;;*
  m_ret [example_tool].

(** One line of the tool list. *)
Definition tool_line (t : tool) : string :=
  "- `" +:+ tool_name t +:+ "`: "
  +:+ match tool_description t with
      | Some d => d
      | None => "No description"
      end.

(** The text of SKILL.md, the f-string of [_generate_skill_md], line by
    line; [savings] is the value of its last interpolated expression. *)
Definition skill_md_lines (self : MCPSkillGenerator) (tools : list tool)
    (savings : Z) : list string :=
  let tool_list := String.concat nl (map tool_line tools) in
  let tool_count := Z.of_nat (length tools) in
  [
    "---";
    "name: " +:+ py_str (server_name self);
    "description: Dynamic access to " +:+ py_str (server_name self) +:+ " MCP server (" +:+ Num.str_of_int tool_count +:+ " tools)";
    "version: 1.0.0";
    "---";
    "";
    "# " +:+ py_str (server_name self) +:+ " Skill";
    "";
    "This skill provides dynamic access to the " +:+ py_str (server_name self) +:+ " MCP server without loading all tool definitions into context.";
    "";
    "## Transport Type";
    "";
    "This skill connects via: **" +:+ _get_transport_type self +:+ "**";
    "";
    "## Context Efficiency";
    "";
    "Traditional MCP approach:";
    "- All " +:+ Num.str_of_int tool_count +:+ " tools loaded at startup";
    "- Estimated context: " +:+ Num.str_of_int (tool_count * 500) +:+ " tokens";
    "";
    "This skill approach:";
    "- Metadata only: ~100 tokens";
    "- Full instructions (when used): ~5k tokens";
    "- Tool execution: 0 tokens (runs externally)";
    "";
    "## How This Works";
    "";
    "Instead of loading all MCP tool definitions upfront, this skill:";
    "1. Tells you what tools are available (just names and brief descriptions)";
    "2. You decide which tool to call based on the user's request";
    "3. Generate a JSON command to invoke the tool";
    "4. The executor handles the actual MCP communication";
    "";
    "## Available Tools";
    "";
    tool_list;
    "";
    "## Usage Pattern";
    "";
    "When the user's request matches this skill's capabilities:";
    "";
    "**Step 1: Identify the right tool** from the list above";
    "";
    "**Step 2: Generate a tool call** in this JSON format:";
    "";
    "```json";
    "{";
    "  " +:+ dq +:+ "tool" +:+ dq +:+ ": " +:+ dq +:+ "tool_name" +:+ dq +:+ ",";
    "  " +:+ dq +:+ "arguments" +:+ dq +:+ ": {";
    "    " +:+ dq +:+ "param1" +:+ dq +:+ ": " +:+ dq +:+ "value1" +:+ dq +:+ ",";
    "    " +:+ dq +:+ "param2" +:+ dq +:+ ": " +:+ dq +:+ "value2" +:+ dq;
    "  }";
    "}";
    "```";
    "";
    "**Step 3: Execute via bash:**";
    "";
    "```bash";
    "cd $SKILL_DIR";
    "python executor.py --call 'YOUR_JSON_HERE'";
    "```";
    "";
    "IMPORTANT: Replace $SKILL_DIR with the actual discovered path of this skill directory.";
    "";
    "## Getting Tool Details";
    "";
    "If you need detailed information about a specific tool's parameters:";
    "";
    "```bash";
    "cd $SKILL_DIR";
    "python executor.py --describe tool_name";
    "```";
    "";
    "This loads ONLY that tool's schema, not all tools.";
    "";
    "## Examples";
    "";
    "### Example 1: Simple tool call";
    "";
    "User: " +:+ dq +:+ "Use " +:+ py_str (server_name self) +:+ " to do X" +:+ dq;
    "";
    "Your workflow:";
    "1. Identify tool: `example_tool`";
    "2. Generate call JSON";
    "3. Execute:";
    "";
    "```bash";
    "cd $SKILL_DIR";
    "python executor.py --call '{" +:+ dq +:+ "tool" +:+ dq +:+ ": " +:+ dq +:+ "example_tool" +:+ dq +:+ ", " +:+ dq +:+ "arguments" +:+ dq +:+ ": {" +:+ dq +:+ "param1" +:+ dq +:+ ": " +:+ dq +:+ "value" +:+ dq +:+ "}}'";
    "```";
    "";
    "### Example 2: Get tool details first";
    "";
    "```bash";
    "cd $SKILL_DIR";
    "python executor.py --describe example_tool";
    "```";
    "";
    "Returns the full schema, then you can generate the appropriate call.";
    "";
    "## Error Handling";
    "";
    "If the executor returns an error:";
    "- Check the tool name is correct";
    "- Verify required arguments are provided";
    "- Ensure the MCP server is accessible";
    "";
    "## Performance Notes";
    "";
    "Context usage comparison for this skill:";
    "";
    "| Scenario | MCP (preload) | Skill (dynamic) |";
    "|----------|---------------|-----------------|";
    "| Idle | " +:+ Num.str_of_int (tool_count * 500) +:+ " tokens | 100 tokens |";
    "| Active | " +:+ Num.str_of_int (tool_count * 500) +:+ " tokens | 5k tokens |";
    "| Executing | " +:+ Num.str_of_int (tool_count * 500) +:+ " tokens | 0 tokens |";
    "";
    "Savings: ~" +:+ Num.str_of_int savings +:+ "% reduction in typical usage";
    "";
    "---";
    "";
    "*This skill was auto-generated from an MCP server configuration.*";
    "*Generator: mcp_to_skill.py*";
    ""
  ].

(** The f-string is evaluated as a whole: when the savings expression
    raises, there is no text. *)
Definition skill_md_content (self : MCPSkillGenerator) (tools : list tool)
    : result string :=
  let tool_count := Z.of_nat (length tools) in
  let* savings := savings_percent tool_count in
  ret (String.concat nl (skill_md_lines self tools savings)).

Definition _generate_skill_md (self : MCPSkillGenerator) (tools : list tool)
    : M unit :=
  run* content := lift (skill_md_content self tools) in
  let skill_path := path_join (output_dir self) "SKILL.md" in
  write_text skill_path content ;;*
  print ("✓ Generated: " +:+ skill_path).

(** The text of the executor script written next to SKILL.md. *)
Definition executor_code : string :=
  String.concat nl [
    "#!/usr/bin/env python3";
    dq +:+ dq +:+ dq;
    "MCP Skill Executor";
    "==================";
    "Handles dynamic communication with the MCP server.";
    dq +:+ dq +:+ dq;
    "";
    "import json";
    "import sys";
    "import asyncio";
    "import argparse";
    "from pathlib import Path";
    "from contextlib import asynccontextmanager";
    "";
    "# Check if mcp package is available";
    "try:";
    "    from mcp import ClientSession, StdioServerParameters";
    "    from mcp.client.stdio import stdio_client";
    "    from mcp.client.streamable_http import streamablehttp_client";
    "    HAS_MCP = True";
    "except ImportError:";
    "    HAS_MCP = False";
    "    print(" +:+ dq +:+ "Warning: mcp package not installed. Install with: pip install mcp" +:+ dq +:+ ", file=sys.stderr)";
    "";
    "";
    "@asynccontextmanager";
    "async def mcp_connection(config):";
    "    " +:+ dq +:+ dq +:+ dq +:+ "Context manager for MCP server connection." +:+ dq +:+ dq +:+ dq;
    "    transport_type = config.get(" +:+ dq +:+ "type" +:+ dq +:+ ", " +:+ dq +:+ "stdio" +:+ dq +:+ ")";
    "";
    "    if transport_type == " +:+ dq +:+ "http" +:+ dq +:+ ":";
    "        url = config[" +:+ dq +:+ "url" +:+ dq +:+ "]";
    "        async with streamablehttp_client(url) as (read, write, _):";
    "            async with ClientSession(read, write) as session:";
    "                await session.initialize()";
    "                yield session";
    "    else:";
    "        server_params = StdioServerParameters(";
    "            command=config[" +:+ dq +:+ "command" +:+ dq +:+ "],";
    "            args=config.get(" +:+ dq +:+ "args" +:+ dq +:+ ", []),";
    "            env=config.get(" +:+ dq +:+ "env" +:+ dq +:+ ")";
    "        )";
    "        async with stdio_client(server_params) as (read, write):";
    "            async with ClientSession(read, write) as session:";
    "                await session.initialize()";
    "                yield session";
    "";
    "";
    "async def list_tools(session):";
    "    " +:+ dq +:+ dq +:+ dq +:+ "Get list of available tools." +:+ dq +:+ dq +:+ dq;
    "    response = await session.list_tools()";
    "    return [{" +:+ dq +:+ "name" +:+ dq +:+ ": t.name, " +:+ dq +:+ "description" +:+ dq +:+ ": t.description} for t in response.tools]";
    "";
    "";
    "async def describe_tool(session, tool_name: str):";
    "    " +:+ dq +:+ dq +:+ dq +:+ "Get detailed schema for a specific tool." +:+ dq +:+ dq +:+ dq;
    "    response = await session.list_tools()";
    "    for tool in response.tools:";
    "        if tool.name == tool_name:";
    "            return {" +:+ dq +:+ "name" +:+ dq +:+ ": tool.name, " +:+ dq +:+ "description" +:+ dq +:+ ": tool.description, " +:+ dq +:+ "inputSchema" +:+ dq +:+ ": tool.inputSchema}";
    "    return None";
    "";
    "";
    "async def call_tool(session, tool_name: str, arguments: dict):";
    "    " +:+ dq +:+ dq +:+ dq +:+ "Execute a tool call." +:+ dq +:+ dq +:+ dq;
    "    response = await session.call_tool(tool_name, arguments)";
    "    return response.content";
    "";
    "";
    "async def main():";
    "    parser = argparse.ArgumentParser(description=" +:+ dq +:+ "MCP Skill Executor" +:+ dq +:+ ")";
    "    parser.add_argument(" +:+ dq +:+ "--call" +:+ dq +:+ ", help=" +:+ dq +:+ "JSON tool call to execute" +:+ dq +:+ ")";
    "    parser.add_argument(" +:+ dq +:+ "--describe" +:+ dq +:+ ", help=" +:+ dq +:+ "Get tool schema" +:+ dq +:+ ")";
    "    parser.add_argument(" +:+ dq +:+ "--list" +:+ dq +:+ ", action=" +:+ dq +:+ "store_true" +:+ dq +:+ ", help=" +:+ dq +:+ "List all tools" +:+ dq +:+ ")";
    "";
    "    args = parser.parse_args()";
    "";
    "    config_path = Path(__file__).parent / " +:+ dq +:+ "mcp-config.json" +:+ dq;
    "    if not config_path.exists():";
    "        print(f" +:+ dq +:+ "Error: Config not found: {config_path}" +:+ dq +:+ ", file=sys.stderr)";
    "        sys.exit(1)";
    "";
    "    with open(config_path) as f:";
    "        config = json.load(f)";
    "";
    "    if not HAS_MCP:";
    "        print(" +:+ dq +:+ "Error: mcp package not installed. Install with: pip install mcp" +:+ dq +:+ ", file=sys.stderr)";
    "        sys.exit(1)";
    "";
    "    try:";
    "        async with mcp_connection(config) as session:";
    "            if args.list:";
    "                tools = await list_tools(session)";
    "                print(json.dumps(tools, indent=2))";
    "";
    "            elif args.describe:";
    "                schema = await describe_tool(session, args.describe)";
    "                if schema:";
    "                    print(json.dumps(schema, indent=2))";
    "                else:";
    "                    print(f" +:+ dq +:+ "Tool not found: {args.describe}" +:+ dq +:+ ", file=sys.stderr)";
    "                    sys.exit(1)";
    "";
    "            elif args.call:";
    "                call_data = json.loads(args.call)";
    "                result = await call_tool(session, call_data[" +:+ dq +:+ "tool" +:+ dq +:+ "], call_data.get(" +:+ dq +:+ "arguments" +:+ dq +:+ ", {}))";
    "                if isinstance(result, list):";
    "                    for item in result:";
    "                        print(item.text if hasattr(item, 'text') else json.dumps(item, indent=2))";
    "                else:";
    "                    print(json.dumps(result, indent=2))";
    "            else:";
    "                parser.print_help()";
    "";
    "    except Exception as e:";
    "        print(f" +:+ dq +:+ "Error: {e}" +:+ dq +:+ ", file=sys.stderr)";
    "        sys.exit(1)";
    "";
    "";
    "if __name__ == " +:+ dq +:+ "__main__" +:+ dq +:+ ":";
    "    asyncio.run(main())";
    ""
  ].

Definition _generate_executor (self : MCPSkillGenerator) : M unit :=
  let executor_path := path_join (output_dir self) "executor.py" in
  write_text executor_path executor_code ;;*
  print ("✓ Generated: " +:+ executor_path).

Definition _generate_config `{Codec} (self : MCPSkillGenerator) : M unit :=
  let config_path := path_join (output_dir self) "mcp-config.json" in
  write_text config_path (dumps (JObj (mcp_config self))) ;;*
  print ("✓ Generated: " +:+ config_path).

Definition _generate_package_json `{Codec} (self : MCPSkillGenerator) : M unit :=
  let package :=
    JObj [("name", JStr ("skill-" +:+ py_str (server_name self)));
          ("version", JStr "1.0.0");
          ("description",
           JStr ("Claude Skill wrapper for " +:+ py_str (server_name self) +:+ " MCP server"));
          ("scripts", JObj [("setup", JStr "pip install mcp")])] in
  let package_path := path_join (output_dir self) "package.json" in
  write_text package_path (dumps package) ;;*
  print ("✓ Generated: " +:+ package_path).

(** [generate]: the output directory is created (directories are not
    tracked, only files), then the four files are written in order. *)
Definition generate `{Codec} (self : MCPSkillGenerator) : M unit :=
  print ("Generating skill for MCP server: " +:+ py_str (server_name self)) ;;*
  run* tools := _get_mcp_tools self in
  _generate_skill_md self tools ;;*
  _generate_executor self ;;*
  _generate_config self ;;*
  _generate_package_json self ;;*
  print ("✓ Skill generated at: " +:+ output_dir self) ;;*
  print ("✓ Tools available: " +:+ Num.str_of_int (Z.of_nat (length tools))).

(** The loop of [convert_mcp_to_skill] over the parsed servers. *)
Fixpoint generate_all `{Codec} (output_base : string) (servers : list json)
    : M unit :=
  match servers with
  | [] => m_ret tt
  | config :: rest =>
      run* name := lift (get config "name" (JStr "unnamed-mcp-server")) in
      match name, config with
      | JStr name, JObj fields =>
          generate (__init__ fields (path_join output_base name)) ;;*
          generate_all output_base rest
      | _, _ => lift (raise TypeError)
      end
  end.

Definition rule : string :=
  "============================================================".

Definition convert_mcp_to_skill `{Codec} (mcp_config_path output_dir : string)
    (server_name : option string) : M unit :=
  run* fs := read_files in
  run* servers := lift (Config.parse_mcp_config fs mcp_config_path server_name) in
  match servers with
  | [] =>
      match server_name with
      | Some s =>
          if Config.truthy server_name
          then print ("Error: Server '" +:+ s +:+ "' not found in config")
          else print "Error: No servers found in config"
      | None => print "Error: No servers found in config"
      end
  | _ =>
      generate_all output_dir servers ;;*
      print (nl +:+ rule) ;;*
      print ("✓ Generated " +:+ Num.str_of_int (Z.of_nat (length servers)) +:+ " skill(s)!") ;;*
      print rule ;;*
      print (nl +:+ "To use:") ;;*
      print "  pip install mcp" ;;*
      print ("  cp -r " +:+ output_dir +:+ "/* ~/.claude/skills/")
  end.

End Generator.

(** ** Sessions, events and outcomes of the executor *)

Module Trace.
Import Text.

(** A tool as the client session reports it. *)
Record Tool : Type := {
  name : string;
  description : option string;
  inputSchema : json
}.

(** An item of [response.content]: it has a [text] attribute, or it is
    a structured value. *)
Inductive content_item : Type :=
| TextItem (text : string)
| StructItem (value : json).

(** [response.content]: a list of items, or some other value. *)
Inductive content : Type :=
| ContentList (items : list content_item)
| ContentValue (value : json).

(** The two kinds of channel, with the parameters read from the
    configuration. *)
Inductive transport : Type :=
| Http (url : json)
| Stdio (command args env : json).

(** An initialized [ClientSession]. *)
Record ClientSession : Type := {
  session_list_tools : result (list Tool);
  session_call_tool : json -> json -> result content
}.

Inductive operation : Type :=
| OpList
| OpDescribe (tool_name : string)
| OpCall (tool_name arguments : json).

(** What a run of the executor does, in order. *)
Inductive event : Type :=
| Opened (t : transport)
| Closed
| Performed (op : operation)
| Stdout (text : string)
| Stderr (text : string)
| StderrError (e : exn)
| Uncaught (e : exn)
| Help.

(** How a block of code ends: normally, by an exception, or by
    [sys.exit(code)]. *)
Inductive outcome (A : Type) : Type :=
| Done (a : A)
| Raised (e : exn)
| Exited (code : Z).

Arguments Done {A} a.
Arguments Raised {A} e.
Arguments Exited {A} code.

(** Computations that log events. *)
Definition E (A : Type) : Type := (list event * outcome A)%type.

Definition e_ret {A} (a : A) : E A := ([], Done a).

Definition e_bind {A B} (m : E A) (k : A -> E B) : E B :=
  match m with
  | (tr, Done a) => let (tr', out) := k a in (tr ++ tr', out)
  | (tr, Raised e) => (tr, Raised e)
  | (tr, Exited c) => (tr, Exited c)
  end.

Definition log (ev : event) : E unit := ([ev], Done tt).

Definition e_lift {A} (r : result A) : E A :=
  match r with
  | inl e => ([], Raised e)
  | inr a => ([], Done a)
  end.

Definition sys_exit {A} (code : Z) : E A := ([], Exited code).

End Trace.

Notation "'ev*' x ':=' m 'in' k" := (Trace.e_bind m (fun x => k))
  (at level 10, x pattern, m at level 100, k at level 200).
Notation "m ';;;' k" := (Trace.e_bind m (fun _ => k))
  (at level 100, k at level 200, right associativity).

(** ** The executor: [executor.py] *)

Module Executor.
Import Text Trace.

(** The transport named by the configuration: the first lines of
    [mcp_connection]. *)
Definition transport_of (config : json) : result transport :=
  let* transport_type := get config "type" (JStr "stdio") in
  if eq_str transport_type "http" then
    let* url := getitem config "url" in
    ret (Http url)
  else
    let* command := getitem config "command" in
    let* args := get config "args" (JArr []) in
    let* env := get config "env" JNull in
    ret (Stdio command args env).

(** [async with mcp_connection(config) as session: body]. The channel is
    opened and initialized by [connect]; it is closed however the body
    ends. *)
Definition mcp_connection {A} (connect : transport -> result ClientSession)
    (config : json) (body : ClientSession -> E A) : E A :=
  ev* t := e_lift (transport_of config) in
  ev* session := e_lift (connect t) in
  let (tr, out) := body session in
  ([Opened t] ++ tr ++ [Closed], out).

Definition opt_str (s : option string) : json :=
  match s with
  | Some s => JStr s
  | None => JNull
  end.

Definition list_tools (session : ClientSession) : E json :=
  log (Performed OpList) ;;;
  ev* tools := e_lift (session_list_tools session) in
  e_ret (JArr (map (fun t => JObj [("name", JStr (name t));
                                   ("description", opt_str (description t))])
                   tools)).

Definition descriptor (tool : Tool) : json :=
  JObj [("name", JStr (name tool));
        ("description", opt_str (description tool));
        ("inputSchema", inputSchema tool)].

(** The loop of [describe_tool]: the first tool of that name. *)
Fixpoint find_tool (tools : list Tool) (tool_name : string) : option json :=
  match tools with
  | [] => None
  | tool :: rest =>
      if String.eqb (name tool) tool_name then Some (descriptor tool)
      else find_tool rest tool_name
  end.

Definition describe_tool (session : ClientSession) (tool_name : string)
    : E (option json) :=
  log (Performed (OpDescribe tool_name)) ;;;
  ev* tools := e_lift (session_list_tools session) in
  e_ret (find_tool tools tool_name).

Definition call_tool (session : ClientSession) (tool_name arguments : json)
    : E content :=
  log (Performed (OpCall tool_name arguments)) ;;;
  e_lift (session_call_tool session tool_name arguments).

(** The parsed command line. *)
Record Args : Type := {
  arg_call : option string;
  arg_describe : option string;
  arg_list : bool
}.

(** Truth value of an optional string argument. *)
Definition given (a : option string) : option string :=
  match a with
  | Some s => if String.eqb s "" then None else Some s
  | None => None
  end.

(** What is printed for one content item. *)
Definition render `{Codec} (item : content_item) : string :=
  match item with
  | TextItem text => text
  | StructItem value => dumps value
  end.

Fixpoint print_items `{Codec} (items : list content_item) : E unit :=
  match items with
  | [] => e_ret tt
  | item :: rest => log (Stdout (render item)) ;;; print_items rest
  end.

(** The tool and the arguments named by [--call]: [json.loads], then
    [call_data["tool"]] and [call_data.get("arguments", {})]. *)
Definition call_request `{Codec} (text : string) : result (json * json) :=
  let* call_data := loads text in
  let* tool := getitem call_data "tool" in
  let* arguments := get call_data "arguments" (JObj []) in
  ret (tool, arguments).

(** The body of the [async with] block of [main]. *)
Definition dispatch `{Codec} (args : Args) (session : ClientSession) : E unit :=
  if arg_list args then
    ev* tools := list_tools session in
    log (Stdout (dumps tools))
  else
    match given (arg_describe args) with
    | Some tool_name =>
        ev* schema := describe_tool session tool_name in
        match schema with
        | Some schema => log (Stdout (dumps schema))
        | None => log (Stderr ("Tool not found: " +:+ tool_name)) ;;; sys_exit 1
        end
    | None =>
        match given (arg_call args) with
        | Some text =>
            ev* request := e_lift (call_request text) in
            ev* result := call_tool session (fst request) (snd request) in
            match result with
            | ContentList items => print_items items
            | ContentValue value => log (Stdout (dumps value))
            end
        | None => log Help
        end
    end.


(** The process the executor runs in: its directory, the files, whether
    the mcp package was imported, and the remote side. *)
Record process : Type := {
  script_dir : string;
  files : gmap string string;
  HAS_MCP : bool;
  connect : transport -> result ClientSession
}.

Definition config_path (p : process) : string :=
  path_join (script_dir p) "mcp-config.json".

(** The configuration [main] reads: nothing when the file is missing,
    otherwise what [json.load] makes of its text. *)
Definition loaded_config `{Codec} (p : process) : option (result json) :=
  match files p !! config_path p with
  | None => None
  | Some text => Some (loads text)
  end.

(** [main]: the events of the run and the exit code. *)
Definition main `{Codec} (args : Args) (p : process) : list event * Z :=
  match loaded_config p with
  | None => ([Stderr ("Error: Config not found: " +:+ config_path p)], 1)
  | Some (inl e) => ([Uncaught e], 1)
  | Some (inr config) =>
      if negb (HAS_MCP p) then
        ([Stderr "Error: mcp package not installed. Install with: pip install mcp"], 1)
      else
        match mcp_connection (connect p) config (dispatch args) with
        | (tr, Done _) => (tr, 0)
        | (tr, Exited code) => (tr, code)
        | (tr, Raised e) => (tr ++ [StderrError e], 1)
        end
  end.




End Executor.

(** ** The catalog fetch the specification describes *)

Module Spec.
Import Trace.

Definition tool_of (t : Tool) : Generator.tool :=
  {| Generator.tool_name := name t;
     Generator.tool_description := description t;
     Generator.tool_inputSchema := inputSchema t |}.

(** The specification's ToolCatalogFetcher: one session is opened on
    the configured server, [list] is called and its answer returned;
    the placeholder catalog stands in only when the server cannot be
    reached. The events of the session are returned with the catalog. *)
Definition spec_get_mcp_tools (connect : transport -> result ClientSession)
    (self : Generator.MCPSkillGenerator) : list Generator.tool * list event :=
  match Executor.mcp_connection connect (JObj (Generator.mcp_config self))
          (fun session => e_lift (session_list_tools session)) with
  | (tr, Done tools) => (map tool_of tools, tr)
  | (tr, _) => ([Generator.example_tool], tr)
  end.

End Spec.

(** ** Sample data *)

Module Samples.
Import Text Trace.

(** The [weather] service as a single-service configuration. *)
Definition weather_fields : dict :=
  [("name", JStr "weather");
   ("command", JStr "wx-server");
   ("args", JArr [JStr "--mode"; JStr "json"])].

(** The scenario of the specification: the [weather] service under
    [mcpServers]. *)
Definition weather_servers : dict :=
  [("weather",
    JObj [("command", JStr "wx-server");
          ("args", JArr [JStr "--mode"; JStr "json"])])].

Definition weather_config : dict := [("mcpServers", JObj weather_servers)].

Definition two_servers : dict :=
  [("mcpServers",
    JObj [("a", JObj [("command", JStr "x")]);
          ("b", JObj [("url", JStr "u")])])].

Definition forecast : Tool :=
  {| name := "forecast";
     description := Some "Weather forecast for a city";
     inputSchema := JObj [("type", JStr "object")] |}.

Definition alerts : Tool :=
  {| name := "alerts";
     description := None;
     inputSchema := JObj [("type", JStr "object")] |}.

(** A server that answers: two tools, and a call that returns a text
    item and a structured item. *)
Definition weather_session : ClientSession :=
  {| session_list_tools := inr [forecast; alerts];
     session_call_tool := fun _ _ =>
       inr (ContentList [TextItem "sunny"; StructItem (JObj [("temp", JInt 21)])]) |}.

Definition weather_connect (t : transport) : result ClientSession :=
  inr weather_session.

(** The files before generation: the configuration, as written by
    [json.dump]. *)
Definition weather_world : World.world :=
  {| World.files := {[ "server.json" := PyJson.dumps (JObj weather_fields) ]};
     World.stdout := [] |}.

(** The executor installed in [skills/weather], its configuration
    beside it. *)
Definition weather_process : Executor.process :=
  {| Executor.script_dir := "skills/weather";
     Executor.files :=
       {[ "skills/weather/mcp-config.json" := PyJson.dumps (JObj weather_fields) ]};
     Executor.HAS_MCP := true;
     Executor.connect := weather_connect |}.




Definition five_tools : list Generator.tool := repeat Generator.example_tool 5.

Definition weather_generator : Generator.MCPSkillGenerator :=
  Generator.__init__ weather_fields "skills/weather".

End Samples.

(** ** Further definitions for the properties of the whole pipeline *)

Module Layout.
Import Text PyRepr World.



(** The [package] dict of [_generate_package_json]. *)
Definition package_of (self : Generator.MCPSkillGenerator) : json :=
  JObj [("name", JStr ("skill-" +:+ py_str (Generator.server_name self)));
        ("version", JStr "1.0.0");
        ("description",
         JStr ("Claude Skill wrapper for " +:+ py_str (Generator.server_name self)
               +:+ " MCP server"));
        ("scripts", JObj [("setup", JStr "pip install mcp")])].

(** The SKILL.md text [generate] writes: the document for the mock
    catalog of one tool. *)
Definition skill_md_of (self : Generator.MCPSkillGenerator) : string :=
  String.concat nl (Generator.skill_md_lines self [Generator.example_tool] (-900)).

(** The four files of one skill, written over [m] in the order
    [generate] writes them. *)
Definition skill_files `{Codec} (self : Generator.MCPSkillGenerator)
    (m : gmap string string) : gmap string string :=
  <[path_join (Generator.output_dir self) "package.json" := dumps (package_of self)]>
    (<[path_join (Generator.output_dir self) "mcp-config.json"
         := dumps (JObj (Generator.mcp_config self))]>
       (<[path_join (Generator.output_dir self) "executor.py"
            := Generator.executor_code]>
          (<[path_join (Generator.output_dir self) "SKILL.md" := skill_md_of self]> m))).




(** The array [list_tools] returns. *)
Definition listing (tools : list Trace.Tool) : json :=
  JArr (map (fun tool =>
               JObj [("name", JStr (Trace.name tool));
                     ("description", Executor.opt_str (Trace.description tool))])
            tools).

End Layout.

(** ** Further sample data *)

Module MoreSamples.
Import Text World Samples.

(** The files before generation, for the [mcpServers] scenario. *)
Definition servers_world : world :=
  {| files := {[ "servers.json" := PyJson.dumps (JObj weather_config) ]};
     stdout := [] |}.

(** A configuration file that holds the array ["command"]. *)
Definition array_world : world :=
  {| files := {[ "array.json" := PyJson.dumps (JArr [JStr "command"]) ]};
     stdout := [] |}.






End MoreSamples.

(** * Properties *)

(** ** Dictionaries *)

Module DictFacts.

Lemma dict_get_set_same (k : string) (v : json) (d : dict) :
  dict_get k (dict_set k v d) = Some v.
Proof.
  induction d as [|[k' v'] d IH]; simpl.
  - now rewrite String.eqb_refl.
  - destruct (String.eqb k k') eqn:E; simpl.
    + now rewrite String.eqb_refl.
    + now rewrite E.
Qed.

Lemma dict_get_set_other (k k' : string) (v : json) (d : dict) :
  k <> k' -> dict_get k' (dict_set k v d) = dict_get k' d.
Proof.
  intros Hne. induction d as [|[k0 v0] d IH]; simpl.
  - destruct (String.eqb k' k) eqn:E; [|reflexivity].
    apply String.eqb_eq in E. congruence.
  - destruct (String.eqb k k0) eqn:E; simpl.
    + apply String.eqb_eq in E. subst k0.
      destruct (String.eqb k' k) eqn:E'; [|reflexivity].
      apply String.eqb_eq in E'. congruence.
    + destruct (String.eqb k' k0); [reflexivity|exact IH].
Qed.

End DictFacts.

(** ** Configuration parsing *)

Module ConfigFacts.
Import Config DictFacts Samples.

(** The loop appends, in order, the named record of every kept entry. *)
Lemma collect_servers_kept (server_name : option string) (entries : dict) :
  forall servers,
    Forall (fun entry => is_obj (snd entry) = true) entries ->
    collect_servers server_name entries servers
    = inr (servers ++ map named (List.filter (kept server_name) entries)).
Proof.
  induction entries as [|[key body] entries IH]; intros servers Hobj; simpl.
  - now rewrite app_nil_r.
  - inversion Hobj as [|? ? Hbody Hrest]; subst. simpl in Hbody.
    unfold kept at 1. simpl.
    destruct (truthy server_name && differs key server_name); simpl.
    + now apply IH.
    + destruct body; try discriminate. simpl.
      rewrite IH by assumption. now rewrite <- app_assoc.
Qed.

Lemma kept_no_filter (entries : dict) :
  List.filter (kept None) entries = entries.
Proof.
  induction entries as [|e entries IH]; simpl; [reflexivity|].
  now rewrite IH.
Qed.

Lemma kept_filter_name (s : string) (entry : string * json) :
  s <> "" -> kept (Some s) entry = String.eqb (fst entry) s.
Proof.
  intros Hs. unfold kept, truthy, differs.
  destruct (String.eqb s "") eqn:E.
  - apply String.eqb_eq in E. contradiction.
  - simpl. now rewrite negb_involutive.
Qed.

Lemma parse_servers_eq (fields servers : dict) (server_name : option string) :
  dict_get "mcpServers" fields = Some (JObj servers) ->
  Forall (fun entry => is_obj (snd entry) = true) servers ->
  parse_mcp_config_data (JObj fields) server_name
  = inr (map named (List.filter (kept server_name) servers)).
Proof.
  intros Hget Hobj. unfold parse_mcp_config_data. simpl.
  rewrite Hget. simpl.
  now rewrite collect_servers_kept.
Qed.

Lemma filter_key_unique (s : string) (servers : dict) :
  NoDup (map fst servers) ->
  (length (List.filter (fun entry => String.eqb (fst entry) s) servers) <= 1)%nat.
Proof.
  induction servers as [|[k v] servers IH]; intros Hnd; simpl; [lia|].
  inversion Hnd as [|? ? Hnotin Hnd']; subst.
  destruct (String.eqb k s) eqn:E; simpl.
  - apply String.eqb_eq in E. subst k.
    assert (Hnil : List.filter (fun entry => String.eqb (fst entry) s) servers = []).
    { clear -Hnotin. induction servers as [|[k v] servers IH]; simpl; [reflexivity|].
      destruct (String.eqb k s) eqn:E.
      - apply String.eqb_eq in E. subst k. exfalso. apply Hnotin. simpl. now left.
      - apply IH. intros Hin. apply Hnotin. simpl. now right. }
    rewrite Hnil. simpl. lia.
  - now apply IH.
Qed.

(** C3 (as amended). For a document whose [mcpServers] map has N entries
    with object bodies: without a filter the parser returns N records in
    insertion order, record i carrying the key of entry i as [name] and
    every other field of its body; with a non-empty filter name it
    returns exactly the records of the entries with that key, at most
    one when keys are distinct. *)
Theorem parse_mcp_servers_records (fields servers : dict) :
  dict_get "mcpServers" fields = Some (JObj servers) ->
  Forall (fun entry => is_obj (snd entry) = true) servers ->
  (exists records,
     parse_mcp_config_data (JObj fields) None = inr records
     /\ length records = length servers
     /\ forall i key body,
          nth_error servers i = Some (key, JObj body) ->
          exists record,
            nth_error records i = Some (JObj record)
            /\ dict_get "name" record = Some (JStr key)
            /\ forall field, field <> "name" ->
                 dict_get field record = dict_get field body)
  /\ (forall s, s <> "" ->
      exists records,
        parse_mcp_config_data (JObj fields) (Some s) = inr records
        /\ records
           = map named (List.filter (fun entry => String.eqb (fst entry) s) servers)
        /\ (forall record, In record records ->
              exists body, In (s, JObj body) servers
                /\ record = JObj (dict_set "name" (JStr s) body))
        /\ (NoDup (map fst servers) -> (length records <= 1)%nat)).
Proof.
  intros Hget Hobj. split.
  - exists (map named servers). split; [|split].
    + rewrite (parse_servers_eq fields servers None Hget Hobj).
      now rewrite kept_no_filter.
    + apply length_map.
    + intros i key body Hnth.
      exists (dict_set "name" (JStr key) body). split; [|split].
      * rewrite nth_error_map, Hnth. reflexivity.
      * apply dict_get_set_same.
      * intros field Hne. apply dict_get_set_other. congruence.
  - intros s Hs.
    exists (map named (List.filter (fun entry => String.eqb (fst entry) s) servers)).
    split; [|split; [|split]].
    + rewrite (parse_servers_eq fields servers (Some s) Hget Hobj).
      f_equal. f_equal. apply List.filter_ext. intros entry.
      now apply kept_filter_name.
    + reflexivity.
    + intros record Hin. apply in_map_iff in Hin as [[key body] [Hrec Hin]].
      apply List.filter_In in Hin as [Hin Hkey]. simpl in Hkey.
      apply String.eqb_eq in Hkey. subst key.
      rewrite List.Forall_forall in Hobj. specialize (Hobj _ Hin). simpl in Hobj.
      destruct body; try discriminate.
      exists fields0. split; [exact Hin|]. now rewrite <- Hrec.
    + intros Hnd. rewrite length_map. now apply filter_key_unique.
Qed.

Lemma parse_mcp_servers_records_witness :
  parse_mcp_config_data (JObj weather_config) None
  = inr [JObj [("command", JStr "wx-server");
               ("args", JArr [JStr "--mode"; JStr "json"]);
               ("name", JStr "weather")]]
  /\ exists records,
       parse_mcp_config_data (JObj weather_config) (Some "weather") = inr records
       /\ (length records <= 1)%nat.
Proof.
  split; [reflexivity|].
  destruct (parse_mcp_servers_records weather_config
              weather_servers eq_refl
              ltac:(repeat constructor)) as [_ Hfilter].
  destruct (Hfilter "weather" ltac:(discriminate)) as [records [Hp [_ [_ Hlen]]]].
  exists records. split; [exact Hp|].
  apply Hlen. simpl. constructor; [intros Hin; inversion Hin|constructor].
Defined.

(** C3 (as stated) fails for the empty filter name: it is given, no
    entry has the empty key, and both entries are returned. *)
Lemma parse_empty_filter_returns_all :
  parse_mcp_config_data (JObj two_servers) (Some "")
  = inr [JObj [("command", JStr "x"); ("name", JStr "a")];
         JObj [("url", JStr "u"); ("name", JStr "b")]]
  /\ ~ (forall s records,
          parse_mcp_config_data (JObj two_servers) (Some s) = inr records ->
          forall record, In record records ->
            getitem record "name" = inr (JStr s)).
Proof.
  split; [reflexivity|].
  intros H.
  specialize (H "" _ eq_refl (JObj [("command", JStr "x"); ("name", JStr "a")])
                ltac:(simpl; now left)).
  discriminate.
Qed.




End ConfigFacts.

(** ** The savings figure *)

Module BudgetFacts.
Import Budget.

Lemma range_agrees_sound (fuel : nat) :
  forall lo n, range_agrees fuel lo = true ->
    lo <= n < lo + Z.of_nat fuel -> savings_agrees n = true.
Proof.
  induction fuel as [|f IH]; intros lo n Hr Hn.
  - simpl in Hn. lia.
  - simpl in Hr. apply andb_prop in Hr as [Hlo Hrest].
    destruct (Z.eq_dec n lo) as [->|Hne]; [exact Hlo|].
    apply (IH (lo + 1)); [exact Hrest|lia].
Qed.

Lemma range_agrees_checked : range_agrees (Z.to_nat checked_bound) 1 = true.
Proof. vm_compute. reflexivity. Qed.

Lemma savings_percent_checked (n : Z) :
  1 <= n <= checked_bound -> savings_percent n = inr (trunc_savings n).
Proof.
  intros Hn.
  pose proof (range_agrees_sound _ 1 n range_agrees_checked) as H.
  rewrite Z2Nat.id in H by (unfold checked_bound; lia).
  assert (Hin : 1 <= n < 1 + checked_bound) by lia.
  specialize (H Hin). unfold savings_agrees in H.
  destruct (savings_percent n) as [e|r]; [discriminate|].
  apply Z.eqb_eq in H. now subst.
Qed.

Lemma trunc_savings_negative (n : Z) : 1 <= n < 10 -> trunc_savings n < 0.
Proof.
  intros Hn. unfold trunc_savings.
  assert (H : 100 * n - 1000 = - (1000 - 100 * n)) by lia.
  rewrite H, Z.quot_opp_l by lia.
  assert (0 < (1000 - 100 * n) ÷ n); [|lia].
  apply Z.quot_str_pos. lia.
Qed.

(** The only way the savings expression divides by zero. *)
Lemma savings_percent_zero_division (n : Z) :
  savings_percent n = inl ZeroDivisionError <-> n = 0.
Proof.
  split.
  - unfold savings_percent, Num.truediv. intros H.
    destruct (n * 500 =? 0) eqn:E; [apply Z.eqb_eq in E; lia|].
    simpl in H. unfold Num.int_of_float in H.
    destruct (Prim2SF _) as [s|s| |s m e]; try discriminate.
  - intros ->. reflexivity.
Qed.

End BudgetFacts.

(** ** The generated document *)

Module GeneratorFacts.
Import Budget Text PyRepr World Generator BudgetFacts Samples.

Lemma skill_md_content_lines (self : MCPSkillGenerator) (tools : list tool) (s : Z) :
  savings_percent (Z.of_nat (length tools)) = inr s ->
  skill_md_content self tools = inr (String.concat nl (skill_md_lines self tools s)).
Proof.
  intros Hs. unfold skill_md_content. now rewrite Hs.
Qed.







(** C10. With an empty catalog the savings expression divides by zero:
    no text is produced, [_generate_skill_md] raises before it writes
    anything, and zero is the only tool count for which this happens. *)
Theorem empty_catalog_divides_by_zero (self : MCPSkillGenerator) (w : world) :
  savings_percent 0 = inl ZeroDivisionError
  /\ skill_md_content self [] = inl ZeroDivisionError
  /\ _generate_skill_md self [] w = (inl ZeroDivisionError, w)
  /\ (forall tools,
        skill_md_content self tools = inl ZeroDivisionError -> tools = []).
Proof.
  split; [reflexivity|]. split; [reflexivity|]. split; [reflexivity|].
  intros tools Hc. unfold skill_md_content in Hc.
  destruct (savings_percent (Z.of_nat (length tools))) as [e|s] eqn:Hs;
    [|discriminate].
  cbv [Py.bind] in Hc. assert (e = ZeroDivisionError) by congruence. subst e.
  apply savings_percent_zero_division in Hs.
  destruct tools; [reflexivity|simpl in Hs; lia].
Qed.

(** The catalog fetch: one line is printed, no file is touched, and the
    mock catalog is returned whatever the configuration. *)
Lemma get_mcp_tools_mock (self : MCPSkillGenerator) (w : world) :
  _get_mcp_tools self w
  = (inr [example_tool],
     {| files := files w;
        stdout := stdout w
                  ++ ["Introspecting MCP server: "
                      +:+ py_str (dict_get_default "command" (JStr "") (mcp_config self))] |}).
Proof. reflexivity. Qed.

(** C2, at a server that answers. The specification's fetch opens one
    session and returns the two tools the server reports; the
    generator's [_get_mcp_tools] opens nothing and returns the mock
    catalog. *)
Lemma get_mcp_tools_ignores_server :
  fst (_get_mcp_tools weather_generator weather_world) = inr [example_tool]
  /\ files (snd (_get_mcp_tools weather_generator weather_world))
     = files weather_world
  /\ Spec.spec_get_mcp_tools weather_connect weather_generator
     = ([Spec.tool_of forecast; Spec.tool_of alerts],
        [Trace.Opened (Trace.Stdio (JStr "wx-server")
                         (JArr [JStr "--mode"; JStr "json"]) JNull);
         Trace.Closed])
  /\ fst (_get_mcp_tools weather_generator weather_world)
     <> inr (fst (Spec.spec_get_mcp_tools weather_connect weather_generator)).
Proof.
  split; [reflexivity|]. split; [reflexivity|]. split; [reflexivity|].
  discriminate.
Qed.

End GeneratorFacts.

(** ** The executor *)

Module ExecutorFacts.
Import Text Trace Executor Samples.

Lemma find_tool_absent (tools : list Tool) (tool_name : string) :
  ~ In tool_name (map name tools) -> find_tool tools tool_name = None.
Proof.
  induction tools as [|tool tools IH]; intros Hnot; simpl; [reflexivity|].
  destruct (String.eqb (name tool) tool_name) eqn:E.
  - apply String.eqb_eq in E. exfalso. apply Hnot. simpl. now left.
  - apply IH. intros Hin. apply Hnot. simpl. now right.
Qed.

Lemma find_tool_present (tools : list Tool) (tool_name : string) :
  In tool_name (map name tools) ->
  exists tool, In tool tools /\ name tool = tool_name
    /\ find_tool tools tool_name = Some (descriptor tool).
Proof.
  induction tools as [|tool tools IH]; intros Hin; simpl in *; [contradiction|].
  destruct (String.eqb (name tool) tool_name) eqn:E.
  - apply String.eqb_eq in E. exists tool. auto.
  - destruct Hin as [Heq|Hin].
    + apply String.eqb_neq in E. contradiction.
    + destruct (IH Hin) as [t [Ht [Hn Hf]]]. exists t. auto.
Qed.

(** C5. On a session that reports its catalog, [describe_tool] returns
    [None] without raising for a name that is not in the catalog, and
    the name, description and input schema of the tool for a name that
    is. *)
Theorem describe_tool_found_or_none (session : ClientSession) (tools : list Tool)
    (tool_name : string) :
  session_list_tools session = inr tools ->
  (~ In tool_name (map name tools) ->
     snd (describe_tool session tool_name) = Done None)
  /\ (In tool_name (map name tools) ->
      exists tool,
        In tool tools /\ name tool = tool_name
        /\ snd (describe_tool session tool_name)
           = Done (Some (JObj [("name", JStr tool_name);
                               ("description", opt_str (description tool));
                               ("inputSchema", inputSchema tool)]))).
Proof.
  intros Hlist. unfold describe_tool. rewrite Hlist. simpl. split.
  - intros Hnot. now rewrite find_tool_absent.
  - intros Hin. destruct (find_tool_present tools tool_name Hin) as [tool [Ht [Hn Hf]]].
    exists tool. split; [exact Ht|]. split; [exact Hn|].
    rewrite Hf. unfold descriptor. now rewrite Hn.
Qed.

Lemma describe_tool_found_or_none_witness :
  snd (describe_tool weather_session "lookup") = Done None
  /\ snd (describe_tool weather_session "forecast")
     = Done (Some (JObj [("name", JStr "forecast");
                         ("description", JStr "Weather forecast for a city");
                         ("inputSchema", JObj [("type", JStr "object")])])).
Proof.
  destruct (describe_tool_found_or_none weather_session [forecast; alerts] "lookup"
              eq_refl) as [Habsent _].
  split; [|reflexivity].
  apply Habsent. simpl. intros [Hin|[Hin|[]]]; discriminate.
Defined.

Section Run.
Context `{Codec}.

Lemma print_items_trace (items : list content_item) :
  print_items items = (map (fun item => Stdout (render item)) items, Done tt).
Proof.
  induction items as [|item items IH]; simpl; [reflexivity|].
  rewrite IH. reflexivity.
Qed.







Lemma print_items_events (items : list content_item) :
  fst (print_items items) = map Stdout (map render items).
Proof. rewrite print_items_trace. simpl. now rewrite map_map. Qed.



(** What [mcp_connection] adds around the body. *)
Lemma mcp_connection_events {A} (connect : transport -> result ClientSession)
    (config : json) (body : ClientSession -> E A) :
  match transport_of config with
  | inr t =>
      match connect t with
      | inr session =>
          mcp_connection connect config body
          = ([Opened t] ++ fst (body session) ++ [Closed], snd (body session))
      | inl e => mcp_connection connect config body = ([], Raised e)
      end
  | inl e => mcp_connection connect config body = ([], Raised e)
  end.
Proof.
  unfold mcp_connection.
  destruct (transport_of config) as [e|t]; simpl; [reflexivity|].
  destruct (connect t) as [e|session]; simpl; [reflexivity|].
  destruct (body session) as [tr out]. simpl. rewrite ?app_nil_r. reflexivity.
Qed.




End Run.



End ExecutorFacts.

(** ** The JSON text model: what is written is read back *)

Module StringFacts.

Lemma app_nil_l (s : string) : "" +:+ s = s.
Proof. reflexivity. Qed.

Lemma app_cons (c : ascii) (s t : string) : String c s +:+ t = String c (s +:+ t).
Proof. reflexivity. Qed.

Lemma app_nil_r (s : string) : s +:+ "" = s.
Proof. induction s as [|c s IH]; [reflexivity|]. now rewrite app_cons, IH. Qed.

Lemma app_assoc (s t u : string) : (s +:+ t) +:+ u = s +:+ (t +:+ u).
Proof.
  induction s as [|c s IH]; [reflexivity|].
  now rewrite !app_cons, IH.
Qed.

Lemma length_app (s t : string) :
  String.length (s +:+ t) = (String.length s + String.length t)%nat.
Proof.
  induction s as [|c s IH]; [reflexivity|].
  rewrite app_cons. simpl. now rewrite IH.
Qed.

Lemma app_inv_head (s t u : string) : s +:+ t = s +:+ u -> t = u.
Proof.
  induction s as [|c s IH]; intros Heq; [exact Heq|].
  rewrite !app_cons in Heq. injection Heq as Heq. now apply IH.
Qed.

End StringFacts.

Module PyJsonFacts.
Import Text PyJson StringFacts.

#[local] Arguments String.append : simpl nomatch.

(** Induction on documents, with the hypothesis on every element of an
    array and on every value of an object. *)
Lemma json_nested_ind (P : json -> Prop) :
  P JNull ->
  (forall b, P (JBool b)) ->
  (forall z, P (JInt z)) ->
  (forall s, P (JStr s)) ->
  (forall xs, Forall P xs -> P (JArr xs)) ->
  (forall ms, Forall (fun m => P (snd m)) ms -> P (JObj ms)) ->
  forall v, P v.
Proof.
  intros Hnull Hbool Hint Hstr Harr Hobj.
  fix IH 1. intros [| b | z | s | xs | ms].
  - exact Hnull.
  - apply Hbool.
  - apply Hint.
  - apply Hstr.
  - apply Harr. induction xs as [|x xs IHxs]; constructor; [apply IH|exact IHxs].
  - apply Hobj. induction ms as [|[k x] ms IHms]; constructor; [apply IH|exact IHms].
Qed.

(** *** String literals *)

Lemma parse_chars_escape (c : ascii) (tail : string) :
  parse_chars (escape_char c +:+ tail) = prepend c (parse_chars tail).
Proof.
  destruct c as [b0 b1 b2 b3 b4 b5 b6 b7].
  destruct b0, b1, b2, b3, b4, b5, b6, b7; reflexivity.
Qed.

Lemma parse_chars_escaped (s rest : string) :
  parse_chars (escape s +:+ dq +:+ rest) = Some (s, rest).
Proof.
  induction s as [|c s IH].
  - reflexivity.
  - simpl escape. rewrite app_assoc, parse_chars_escape, IH. reflexivity.
Qed.

Lemma print_string_cons (s rest : string) :
  print_string s +:+ rest = String (ascii_of_nat 34) (escape s +:+ dq +:+ rest).
Proof.
  unfold print_string. rewrite !app_assoc. reflexivity.
Qed.

(** *** Numbers *)

Lemma is_digit_not_minus (c : ascii) :
  is_digit c = true -> (N_of_ascii c =? 45)%N = false.
Proof.
  unfold is_digit. intros H. apply andb_prop in H as [H _].
  apply N.leb_le in H. apply N.eqb_neq. lia.
Qed.

Lemma span_digits_stop (rest : string) :
  number_ends rest = true -> span_digits rest = ("", rest).
Proof.
  destruct rest as [|c rest]; [reflexivity|].
  unfold number_ends. intros H. simpl.
  destruct (is_digit c); [discriminate|reflexivity].
Qed.

Lemma span_digits_uint (u : Decimal.uint) (rest : string) :
  number_ends rest = true ->
  span_digits (NilEmpty.string_of_uint u +:+ rest)
  = (NilEmpty.string_of_uint u, rest).
Proof.
  intros Hrest.
  induction u as [|u IH|u IH|u IH|u IH|u IH|u IH|u IH|u IH|u IH|u IH];
    [now apply span_digits_stop|..];
    simpl NilEmpty.string_of_uint; rewrite app_cons;
    cbn [span_digits]; rewrite IH; reflexivity.
Qed.

Lemma uint_string_digit (u : Decimal.uint) :
  u <> Decimal.Nil ->
  exists c tl, NilEmpty.string_of_uint u = String c tl /\ is_digit c = true.
Proof.
  destruct u; intros Hne; [contradiction|..]; simpl; eauto.
Qed.

Lemma to_int_cases (z : Z) :
  exists u, u <> Decimal.Nil
    /\ (Z.to_int z = Decimal.Pos u \/ Z.to_int z = Decimal.Neg u).
Proof.
  destruct z as [|p|p]; simpl.
  - exists Decimal.zero. split; [discriminate|now left].
  - exists (Pos.to_uint p). split; [apply DecimalPos.Unsigned.to_uint_nonnil|now left].
  - exists (Pos.to_uint p). split; [apply DecimalPos.Unsigned.to_uint_nonnil|now right].
Qed.

Lemma nilzero_uint (u : Decimal.uint) :
  u <> Decimal.Nil -> NilZero.string_of_uint u = NilEmpty.string_of_uint u.
Proof. destruct u; [contradiction|reflexivity..]. Qed.

Lemma parse_number_int (z : Z) (rest : string) :
  number_ends rest = true ->
  parse_number (Num.str_of_int z +:+ rest) = Some (JInt z, rest).
Proof.
  intros Hrest. unfold Num.str_of_int.
  pose proof (DecimalZ.of_to z) as Hz.
  destruct (to_int_cases z) as [u [Hu [Hd|Hd]]]; rewrite Hd in *.
  - assert (Hisi : NilZero.int_of_string (NilZero.string_of_int (Decimal.Pos u))
                   = Some (Decimal.Pos u)).
    { apply NilZero.isi; [|discriminate]. intros Heq. injection Heq as ->.
      contradiction. }
    simpl NilZero.string_of_int in *. rewrite nilzero_uint in * by assumption.
    destruct (uint_string_digit u Hu) as [c [tl [Hs Hc]]].
    unfold parse_number.
    assert (Hspan : match NilEmpty.string_of_uint u +:+ rest with
                    | String c0 r =>
                        if (N_of_ascii c0 =? 45)%N
                        then let (d, r') := span_digits r in (String c0 d, r')
                        else span_digits (NilEmpty.string_of_uint u +:+ rest)
                    | EmptyString => (EmptyString, EmptyString)
                    end = (NilEmpty.string_of_uint u, rest)).
    { rewrite Hs at 1. rewrite app_cons. rewrite (is_digit_not_minus c Hc).
      now apply span_digits_uint. }
    rewrite Hspan, Hrest, Hisi, Hz. reflexivity.
  - assert (Hisi : NilZero.int_of_string (NilZero.string_of_int (Decimal.Neg u))
                   = Some (Decimal.Neg u)).
    { apply NilZero.isi; [discriminate|]. intros Heq. injection Heq as ->.
      contradiction. }
    simpl NilZero.string_of_int in *. rewrite nilzero_uint in * by assumption.
    unfold parse_number. rewrite app_cons.
    change (N_of_ascii "-" =? 45)%N with true. cbv iota.
    rewrite span_digits_uint by assumption.
    rewrite Hrest, Hisi, Hz. reflexivity.
Qed.

(** The first character of a number. *)
Lemma str_of_int_start (z : Z) :
  exists c tl, Num.str_of_int z = String c tl /\ classify c = TNumber
    /\ is_ws c = false.
Proof.
  unfold Num.str_of_int.
  destruct (to_int_cases z) as [u [Hu [Hd|Hd]]]; rewrite Hd;
    simpl NilZero.string_of_int.
  - rewrite nilzero_uint by assumption.
    destruct u; [contradiction|..]; simpl; eauto.
  - eexists _, _. split; [reflexivity|]. split; reflexivity.
Qed.

(** *** Blanks and brackets *)

Lemma skip_ws_spaces (k : nat) (s : string) : skip_ws (spaces k +:+ s) = skip_ws s.
Proof. induction k as [|k IH]; [reflexivity|]. simpl. exact IH. Qed.

Lemma skip_ws_newline (k : nat) (s : string) : skip_ws (newline k +:+ s) = skip_ws s.
Proof.
  unfold newline, nl. rewrite app_assoc, app_cons, app_nil_l.
  simpl. apply skip_ws_spaces.
Qed.

Lemma skip_ws_start (s : string) : starts_value s = true -> skip_ws s = s.
Proof.
  destruct s as [|c s]; [discriminate|]. simpl.
  destruct (is_ws c); [discriminate|reflexivity].
Qed.

Lemma expect_newline (n : N) (k : nat) (s : string) :
  expect n (newline k +:+ s) = expect n s.
Proof. unfold expect. now rewrite skip_ws_newline. Qed.

Lemma expect_start (s : string) :
  starts_value s = true -> expect 93 s = None /\ expect 125 s = None.
Proof.
  intros Hs. unfold expect. rewrite (skip_ws_start s Hs).
  destruct s as [|c s]; [discriminate|]. simpl in Hs.
  destruct (is_ws c); [discriminate|].
  destruct (N_of_ascii c =? 93)%N; [discriminate|].
  destruct (N_of_ascii c =? 125)%N; [discriminate|]. auto.
Qed.

Lemma parse_value_newline (fuel k : nat) (s : string) :
  parse_value fuel (newline k +:+ s) = parse_value fuel s.
Proof.
  destruct fuel; [reflexivity|]. simpl. now rewrite skip_ws_spaces.
Qed.

Lemma parse_value_space (fuel : nat) (s : string) :
  parse_value fuel (" " +:+ s) = parse_value fuel s.
Proof. destruct fuel; reflexivity. Qed.

Lemma number_ends_newline (k : nat) (s : string) :
  number_ends (newline k +:+ s) = true.
Proof. reflexivity. Qed.

Lemma length_newline (k : nat) : String.length (newline k) = S k.
Proof.
  unfold newline, nl. rewrite app_cons, app_nil_l. simpl. f_equal.
  induction k as [|k IH]; [reflexivity|]. simpl. now rewrite IH.
Qed.

(** *** Values *)

Lemma starts_value_print (ind : nat) (v : json) (rest : string) :
  starts_value (print ind v +:+ rest) = true.
Proof.
  destruct v as [| [|] | z | s | [|x xs] | [|m ms]]; try reflexivity.
  destruct (str_of_int_start z) as [c [tl [Hs [Hc Hw]]]].
  simpl print. rewrite Hs, app_cons. simpl. rewrite Hw.
  unfold classify in Hc.
  destruct (N_of_ascii c =? 34)%N; [discriminate|].
  destruct (N_of_ascii c =? 91)%N; [discriminate|].
  destruct (N_of_ascii c =? 123)%N; [discriminate|].
  unfold is_digit in Hc.
  destruct (N_of_ascii c =? 93)%N eqn:E1.
  { apply N.eqb_eq in E1. rewrite E1 in Hc. discriminate. }
  destruct (N_of_ascii c =? 125)%N eqn:E2.
  { apply N.eqb_eq in E2. rewrite E2 in Hc. discriminate. }
  reflexivity.
Qed.

(** A document is read back from its text, whatever follows that cannot
    continue a number. *)
Definition reads (v : json) : Prop :=
  forall ind fuel rest,
    well_formed v = true ->
    number_ends rest = true ->
    (String.length (print ind v) < fuel)%nat ->
    parse_value fuel (print ind v +:+ rest) = Some (v, rest).

Lemma reads_null : reads JNull.
Proof. intros ind [|f] rest _ _ Hf; [simpl in Hf; lia|reflexivity]. Qed.

Lemma reads_bool (b : bool) : reads (JBool b).
Proof. intros ind [|f] rest _ _ Hf; [simpl in Hf; lia|]. destruct b; reflexivity. Qed.

Lemma reads_int (z : Z) : reads (JInt z).
Proof.
  intros ind [|f] rest _ Hrest Hf; [simpl in Hf; lia|].
  destruct (str_of_int_start z) as [c [tl [Hs [Hc Hw]]]].
  simpl print.
  pose proof (parse_number_int z rest Hrest) as Hp.
  rewrite Hs, app_cons in *. simpl. rewrite Hw, Hc. exact Hp.
Qed.

Lemma reads_str (s : string) : reads (JStr s).
Proof.
  intros ind [|f] rest _ _ Hf; [simpl in Hf; lia|].
  pose proof (parse_chars_escaped s rest) as Hp.
  simpl print. rewrite print_string_cons. simpl in *.
  now rewrite Hp.
Qed.

#[local] Arguments newline : simpl never.
#[local] Arguments print_string : simpl never.

(** One step of each reader, on the texts met below. *)

Lemma parse_tail_elems_step (f : nat) (s : string) :
  parse_tail_elems (S f) s
  = match expect 93 s with
    | Some r => Some ([], r)
    | None =>
        match expect 44 s with
        | None => None
        | Some s1 =>
            match parse_value f s1 with
            | None => None
            | Some (x, r1) =>
                match parse_tail_elems f r1 with
                | None => None
                | Some (xs, r2) => Some (x :: xs, r2)
                end
            end
        end
    end.
Proof. reflexivity. Qed.

Lemma parse_tail_members_step (f : nat) (s : string) :
  parse_tail_members (S f) s
  = match expect 125 s with
    | Some r => Some ([], r)
    | None =>
        match expect 44 s with
        | None => None
        | Some s1 =>
            match parse_member (parse_value f) s1 with
            | None => None
            | Some (m, r1) =>
                match parse_tail_members f r1 with
                | None => None
                | Some (ms, r2) => Some (m :: ms, r2)
                end
            end
        end
    end.
Proof. reflexivity. Qed.

Lemma parse_value_arr (f : nat) (s : string) :
  parse_value (S f) ("[" +:+ s)
  = match expect 93 s with
    | Some r => Some (JArr [], r)
    | None =>
        match parse_value f s with
        | None => None
        | Some (x, r1) =>
            match parse_tail_elems f r1 with
            | None => None
            | Some (xs, r2) => Some (JArr (x :: xs), r2)
            end
        end
    end.
Proof. reflexivity. Qed.

Lemma parse_value_obj (f : nat) (s : string) :
  parse_value (S f) ("{" +:+ s)
  = match expect 125 s with
    | Some r => Some (JObj [], r)
    | None =>
        match parse_member (parse_value f) s with
        | None => None
        | Some (m, r1) =>
            match parse_tail_members f r1 with
            | None => None
            | Some (ms, r2) => Some (JObj (dict_of (m :: ms)), r2)
            end
        end
    end.
Proof. reflexivity. Qed.

Lemma expect_comma (s : string) :
  expect 93 ("," +:+ s) = None /\ expect 125 ("," +:+ s) = None
  /\ expect 44 ("," +:+ s) = Some s.
Proof. repeat split. Qed.

Lemma number_ends_tail_elems (pr : json -> string) (ind : nat) (xs : list json)
    (rest : string) :
  number_ends (tail_elems pr ind xs +:+ rest) = true.
Proof. destruct xs; reflexivity. Qed.

Lemma number_ends_tail_members (pr : json -> string) (ind : nat)
    (ms : list (string * json)) (rest : string) :
  number_ends (tail_members pr ind ms +:+ rest) = true.
Proof. destruct ms; reflexivity. Qed.

(** *** Arrays *)

Lemma reads_tail_elems (xs : list json) :
  Forall reads xs ->
  forall ind fuel rest,
    forallb well_formed xs = true ->
    (String.length (tail_elems (print (ind + 2)) ind xs) < fuel)%nat ->
    parse_tail_elems fuel (tail_elems (print (ind + 2)) ind xs +:+ rest)
    = Some (xs, rest).
Proof.
  induction 1 as [|x xs Hx Hxs IH]; intros ind [|f] rest Hwf Hf;
    try (simpl in Hf; lia).
  - rewrite parse_tail_elems_step. cbn [tail_elems].
    rewrite app_assoc, expect_newline. reflexivity.
  - simpl in Hwf. apply andb_prop in Hwf as [Hwx Hwxs].
    cbn [tail_elems] in *.
    rewrite !length_app, length_newline in Hf. simpl in Hf.
    rewrite parse_tail_elems_step, !app_assoc.
    destruct (expect_comma (newline (ind + 2) +:+ print (ind + 2) x
                            +:+ tail_elems (print (ind + 2)) ind xs +:+ rest))
      as [H93 [_ H44]].
    rewrite H93, H44, parse_value_newline.
    rewrite (Hx (ind + 2)%nat f _ Hwx (number_ends_tail_elems _ _ _ _)) by lia.
    rewrite IH by (assumption || lia). reflexivity.
Qed.

Lemma reads_arr (xs : list json) : Forall reads xs -> reads (JArr xs).
Proof.
  intros Hxs ind [|f] rest Hwf _ Hf; [simpl in Hf; lia|].
  destruct Hxs as [|x xs Hx Hxs]; [reflexivity|].
  simpl in Hwf. apply andb_prop in Hwf as [Hwx Hwxs].
  cbn [print] in *.
  rewrite !length_app, length_newline in Hf. simpl in Hf.
  rewrite !app_assoc, parse_value_arr, expect_newline.
  destruct (expect_start _ (starts_value_print (ind + 2) x
              (tail_elems (print (ind + 2)) ind xs +:+ rest))) as [H93 _].
  rewrite H93, parse_value_newline.
  rewrite (Hx (ind + 2)%nat f _ Hwx (number_ends_tail_elems _ _ _ _)) by lia.
  rewrite (reads_tail_elems xs Hxs) by (assumption || lia). reflexivity.
Qed.

(** *** Objects *)

Lemma parse_member_printed (f i j : nat) (k : string) (x : json) (rest : string) :
  reads x -> well_formed x = true -> number_ends rest = true ->
  (String.length (print i x) < f)%nat ->
  parse_member (parse_value f)
    (newline j +:+ print_member (print i) (k, x) +:+ rest)
  = Some ((k, x), rest).
Proof.
  intros Hx Hwf Hrest Hf. unfold parse_member, print_member. cbn [fst snd].
  rewrite expect_newline, !app_assoc, print_string_cons.
  change (expect 34 (String (ascii_of_nat 34) ?s)) with (Some s).
  cbv beta iota. rewrite parse_chars_escaped.
  change (expect 58 (": " +:+ ?s)) with (Some (" " +:+ s)).
  cbv beta iota. rewrite parse_value_space, (Hx i f rest Hwf Hrest Hf). reflexivity.
Qed.

Lemma reads_tail_members (ms : list (string * json)) :
  Forall (fun m => reads (snd m)) ms ->
  forall ind fuel rest,
    forallb (fun m => well_formed (snd m)) ms = true ->
    (String.length (tail_members (print (ind + 2)) ind ms) < fuel)%nat ->
    parse_tail_members fuel (tail_members (print (ind + 2)) ind ms +:+ rest)
    = Some (ms, rest).
Proof.
  induction 1 as [|[k x] ms Hx Hms IH]; intros ind [|f] rest Hwf Hf;
    try (simpl in Hf; lia).
  - rewrite parse_tail_members_step. cbn [tail_members].
    rewrite app_assoc, expect_newline. reflexivity.
  - simpl in Hwf. apply andb_prop in Hwf as [Hwx Hwms].
    cbn [tail_members] in *. simpl in Hx.
    unfold print_member in Hf. cbn [fst snd] in Hf.
    rewrite !length_app, length_newline in Hf. simpl in Hf.
    rewrite parse_tail_members_step.
    rewrite (app_assoc ","), (app_assoc (newline (ind + 2))),
      (app_assoc (print_member _ _)).
    destruct (expect_comma (newline (ind + 2) +:+ print_member (print (ind + 2)) (k, x)
                            +:+ tail_members (print (ind + 2)) ind ms +:+ rest))
      as [_ [H125 H44]].
    rewrite H125, H44.
    rewrite (parse_member_printed f (ind + 2) (ind + 2) k x _ Hx Hwx
               (number_ends_tail_members _ _ _ _)) by lia.
    rewrite IH by (assumption || lia). reflexivity.
Qed.

Lemma distinct_keys_NoDup (ks : list string) :
  distinct_keys ks = true <-> List.NoDup ks.
Proof.
  induction ks as [|k ks IH]; simpl.
  - split; [constructor|reflexivity].
  - rewrite andb_true_iff, negb_true_iff, IH. split.
    + intros [Hk Hks]. constructor; [|exact Hks].
      intros Hin. apply not_true_iff_false in Hk. apply Hk.
      apply existsb_exists. exists k. split; [exact Hin|apply String.eqb_refl].
    + intros Hnd. inversion Hnd as [|? ? Hk Hks]; subst. split; [|exact Hks].
      apply not_true_iff_false. intros Hex.
      apply existsb_exists in Hex as [k' [Hin Heq]].
      apply String.eqb_eq in Heq. subst k'. contradiction.
Qed.

Lemma dict_set_fresh (k : string) (v : json) (d : dict) :
  ~ In k (map fst d) -> dict_set k v d = d ++ [(k, v)].
Proof.
  induction d as [|[k' v'] d IH]; intros Hk; simpl; [reflexivity|].
  destruct (String.eqb k k') eqn:E.
  - apply String.eqb_eq in E. subst k'. exfalso. apply Hk. simpl. now left.
  - rewrite IH; [reflexivity|]. intros Hin. apply Hk. simpl. now right.
Qed.

Lemma fold_dict_set_distinct (ms acc : dict) :
  List.NoDup (map fst (acc ++ ms)) ->
  fold_left (fun d m => dict_set (fst m) (snd m) d) ms acc = acc ++ ms.
Proof.
  revert acc. induction ms as [|[k v] ms IH]; intros acc Hnd; simpl.
  - now rewrite List.app_nil_r.
  - rewrite dict_set_fresh.
    + rewrite IH; rewrite <- List.app_assoc; [reflexivity|exact Hnd].
    + rewrite List.map_app in Hnd. simpl in Hnd.
      apply List.NoDup_remove_2 in Hnd.
      intros Hin. apply Hnd. apply List.in_or_app. now left.
Qed.

Lemma dict_of_distinct (ms : dict) :
  distinct_keys (map fst ms) = true -> dict_of ms = ms.
Proof.
  intros Hd. unfold dict_of. apply (fold_dict_set_distinct ms []).
  now apply distinct_keys_NoDup.
Qed.

Lemma reads_obj (ms : list (string * json)) :
  Forall (fun m => reads (snd m)) ms -> reads (JObj ms).
Proof.
  intros Hms ind [|f] rest Hwf _ Hf; [simpl in Hf; lia|].
  destruct Hms as [|[k x] ms Hx Hms]; [reflexivity|].
  cbn [well_formed] in Hwf. apply andb_prop in Hwf as [Hkeys Hwf].
  pose proof (dict_of_distinct _ Hkeys) as Hdict.
  simpl in Hwf. apply andb_prop in Hwf as [Hwx Hwms].
  cbn [print] in *. simpl in Hx.
  unfold print_member in Hf. cbn [fst snd] in Hf.
  rewrite !length_app, length_newline in Hf. simpl in Hf.
  rewrite (app_assoc "{"), (app_assoc (newline (ind + 2))),
    (app_assoc (print_member _ _)).
  rewrite parse_value_obj.
  assert (H125 : expect 125 (newline (ind + 2) +:+ print_member (print (ind + 2)) (k, x)
                             +:+ tail_members (print (ind + 2)) ind ms +:+ rest) = None).
  { rewrite expect_newline. unfold print_member. cbn [fst snd].
    rewrite !app_assoc, print_string_cons. reflexivity. }
  rewrite H125.
  rewrite (parse_member_printed f (ind + 2) (ind + 2) k x _ Hx Hwx
             (number_ends_tail_members _ _ _ _)) by lia.
  rewrite (reads_tail_members ms Hms) by (assumption || lia).
  now rewrite Hdict.
Qed.

(** Every document is read back from its text. *)
Lemma reads_all (v : json) : reads v.
Proof.
  induction v using json_nested_ind.
  - apply reads_null.
  - apply reads_bool.
  - apply reads_int.
  - apply reads_str.
  - now apply reads_arr.
  - now apply reads_obj.
Qed.

Lemma loads_dumps_well_formed (v : json) :
  well_formed v = true -> PyJson.loads (PyJson.dumps v) = inr v.
Proof.
  intros Hwf. unfold PyJson.loads, PyJson.dumps.
  rewrite <- (app_nil_r (print 0 v)) at 2.
  rewrite (reads_all v 0%nat _ "" Hwf eq_refl) by lia.
  reflexivity.
Qed.

(** *** What is read has distinct keys *)

Lemma dict_set_keys_in (k x : string) (v : json) (d : dict) :
  In x (map fst (dict_set k v d)) -> x = k \/ In x (map fst d).
Proof.
  induction d as [|[k' v'] d IH]; simpl.
  - intros [Hx|[]]. now left.
  - destruct (String.eqb k k') eqn:E; simpl.
    + apply String.eqb_eq in E. subst k'. intros [Hx|Hx]; auto.
    + intros [Hx|Hx]; auto. destruct (IH Hx); auto.
Qed.

Lemma dict_set_keys_NoDup (k : string) (v : json) (d : dict) :
  List.NoDup (map fst d) -> List.NoDup (map fst (dict_set k v d)).
Proof.
  induction d as [|[k' v'] d IH]; simpl; intros Hnd.
  - constructor; [intros []|constructor].
  - inversion Hnd as [|? ? Hk Hd]; subst.
    destruct (String.eqb k k') eqn:E; simpl.
    + apply String.eqb_eq in E. subst k'. now constructor.
    + constructor; [|now apply IH].
      intros Hin. apply dict_set_keys_in in Hin as [Hx|Hx]; [|contradiction].
      subst k'. now rewrite String.eqb_refl in E.
Qed.

Lemma dict_set_values (k : string) (v : json) (d : dict) :
  well_formed v = true ->
  forallb (fun m => well_formed (snd m)) d = true ->
  forallb (fun m => well_formed (snd m)) (dict_set k v d) = true.
Proof.
  intros Hv. induction d as [|[k' v'] d IH]; simpl; intros Hd.
  - now rewrite Hv.
  - apply andb_prop in Hd as [Hv' Hd].
    destruct (String.eqb k k'); simpl.
    + now rewrite Hv, Hd.
    + now rewrite Hv', IH.
Qed.

Lemma fold_dict_set_well_formed (ms acc : dict) :
  List.NoDup (map fst acc) ->
  forallb (fun m => well_formed (snd m)) acc = true ->
  forallb (fun m => well_formed (snd m)) ms = true ->
  let d := fold_left (fun d m => dict_set (fst m) (snd m) d) ms acc in
  List.NoDup (map fst d) /\ forallb (fun m => well_formed (snd m)) d = true.
Proof.
  revert acc. induction ms as [|[k v] ms IH]; intros acc Hnd Hacc Hms; simpl.
  - auto.
  - simpl in Hms. apply andb_prop in Hms as [Hv Hms].
    apply IH; [now apply dict_set_keys_NoDup|now apply dict_set_values|exact Hms].
Qed.

Lemma dict_of_well_formed (ms : dict) :
  forallb (fun m => well_formed (snd m)) ms = true ->
  well_formed (JObj (dict_of ms)) = true.
Proof.
  intros Hms.
  destruct (fold_dict_set_well_formed ms [] (List.NoDup_nil _) eq_refl Hms)
    as [Hnd Hwf].
  cbn [well_formed]. apply andb_true_intro. split; [|exact Hwf].
  now apply distinct_keys_NoDup.
Qed.

Lemma parse_member_value (pv : string -> option (json * string)) (s : string)
    (m : string * json) (r : string) :
  parse_member pv s = Some (m, r) -> exists s', pv s' = Some (snd m, r).
Proof.
  unfold parse_member.
  destruct (expect 34 s) as [s1|]; [|discriminate].
  destruct (parse_chars s1) as [[key s2]|]; [|discriminate].
  destruct (expect 58 s2) as [s3|]; [|discriminate].
  destruct (pv s3) as [[v s4]|] eqn:E; [|discriminate].
  intros Heq. injection Heq as <- <-. now exists s3.
Qed.

Lemma parse_number_well_formed (s : string) (v : json) (r : string) :
  parse_number s = Some (v, r) -> well_formed v = true.
Proof.
  unfold parse_number.
  destruct (match s with
            | EmptyString => (EmptyString, EmptyString)
            | String c r0 =>
                if (N_of_ascii c =? 45)%N
                then let (d, r') := span_digits r0 in (String c d, r')
                else span_digits s
            end) as [text rest].
  destruct (number_ends rest); [|discriminate].
  destruct (NilZero.int_of_string text); [|discriminate].
  intros Heq. injection Heq as <- _. reflexivity.
Qed.

Lemma parse_literal_well_formed (s : string) (v : json) (r : string) :
  parse_literal s = Some (v, r) -> well_formed v = true.
Proof.
  unfold parse_literal.
  destruct (strip "null" s); [intros Heq; injection Heq as <- _; reflexivity|].
  destruct (strip "true" s); [intros Heq; injection Heq as <- _; reflexivity|].
  destruct (strip "false" s); [intros Heq; injection Heq as <- _; reflexivity|].
  discriminate.
Qed.

Lemma parse_well_formed (fuel : nat) :
  (forall s v r, parse_value fuel s = Some (v, r) -> well_formed v = true)
  /\ (forall s xs r, parse_tail_elems fuel s = Some (xs, r) ->
        forallb well_formed xs = true)
  /\ (forall s ms r, parse_tail_members fuel s = Some (ms, r) ->
        forallb (fun m => well_formed (snd m)) ms = true).
Proof.
  induction fuel as [|f [IHv [IHe IHm]]]; [repeat split; discriminate|].
  split; [|split].
  - intros s v r H. simpl in H.
    destruct (skip_ws s) as [|c rest]; [discriminate|].
    destruct (classify c).
    + destruct (parse_chars rest) as [[str r']|]; [|discriminate].
      injection H as <- _. reflexivity.
    + destruct (expect 93 rest); [injection H as <- _; reflexivity|].
      destruct (parse_value f rest) as [[x r1]|] eqn:Ex; [|discriminate].
      destruct (parse_tail_elems f r1) as [[xs r2]|] eqn:Exs; [|discriminate].
      injection H as <- _. cbn [well_formed forallb].
      now rewrite (IHv _ _ _ Ex), (IHe _ _ _ Exs).
    + destruct (expect 125 rest); [injection H as <- _; reflexivity|].
      destruct (parse_member (parse_value f) rest) as [[m r1]|] eqn:Em;
        [|discriminate].
      destruct (parse_tail_members f r1) as [[ms r2]|] eqn:Ems; [|discriminate].
      injection H as <- _. apply dict_of_well_formed. cbn [forallb].
      apply parse_member_value in Em as [s' Em].
      now rewrite (IHv _ _ _ Em), (IHm _ _ _ Ems).
    + now apply parse_number_well_formed in H.
    + now apply parse_literal_well_formed in H.
  - intros s xs r H. rewrite parse_tail_elems_step in H.
    destruct (expect 93 s); [injection H as <- _; reflexivity|].
    destruct (expect 44 s) as [s1|]; [|discriminate].
    destruct (parse_value f s1) as [[x r1]|] eqn:Ex; [|discriminate].
    destruct (parse_tail_elems f r1) as [[xs' r2]|] eqn:Exs; [|discriminate].
    injection H as <- _. cbn [forallb].
    now rewrite (IHv _ _ _ Ex), (IHe _ _ _ Exs).
  - intros s ms r H. rewrite parse_tail_members_step in H.
    destruct (expect 125 s); [injection H as <- _; reflexivity|].
    destruct (expect 44 s) as [s1|]; [|discriminate].
    destruct (parse_member (parse_value f) s1) as [[m r1]|] eqn:Em; [|discriminate].
    destruct (parse_tail_members f r1) as [[ms' r2]|] eqn:Ems; [|discriminate].
    injection H as <- _. cbn [forallb].
    apply parse_member_value in Em as [s' Em].
    now rewrite (IHv _ _ _ Em), (IHm _ _ _ Ems).
Qed.

Lemma loads_well_formed_text (text : string) (v : json) :
  PyJson.loads text = inr v -> well_formed v = true.
Proof.
  unfold PyJson.loads.
  destruct (parse_value (S (String.length text)) text) as [[v' rest]|] eqn:E;
    [|discriminate].
  destruct (skip_ws rest); [|discriminate].
  intros Heq. injection Heq as <-.
  exact (proj1 (parse_well_formed _) _ _ _ E).
Qed.

(** The model of the library has the two properties the program relies
    on. *)
Lemma python_json_laws : CodecLaws python_json.
Proof.
  split.
  - exact loads_well_formed_text.
  - exact loads_dumps_well_formed.
Qed.

End PyJsonFacts.

(** ** From generation to use: the persisted configuration *)

Module PersistFacts.
Import Budget Text PyRepr World Generator StringFacts.

Lemma path_join_inj (dir a b : string) : path_join dir a = path_join dir b -> a = b.
Proof.
  unfold path_join. intros Heq.
  apply app_inv_head in Heq. now apply (app_inv_head "/") in Heq.
Qed.

Lemma savings_one_tool : savings_percent 1 = inr (-900).
Proof. vm_compute. reflexivity. Qed.

Section Codec.
Context `{C : Codec}.

(** A run of [generate]: it succeeds, and the four files are written
    over the files that were there. *)
Lemma generate_files (self : MCPSkillGenerator) (w : world) :
  exists content package out,
    generate self w
    = (inr tt,
       {| files :=
            <[path_join (output_dir self) "package.json" := dumps package]>
              (<[path_join (output_dir self) "mcp-config.json"
                   := dumps (JObj (mcp_config self))]>
                 (<[path_join (output_dir self) "executor.py" := executor_code]>
                    (<[path_join (output_dir self) "SKILL.md" := content]>
                       (files w))));
          stdout := out |}).
Proof.
  assert (Hc : skill_md_content self [example_tool]
               = inr (String.concat nl (skill_md_lines self [example_tool] (-900)))).
  { apply GeneratorFacts.skill_md_content_lines. exact savings_one_tool. }
  cbv beta iota zeta delta [generate _get_mcp_tools _generate_skill_md
                            _generate_executor _generate_config
                            _generate_package_json
                            m_bind m_ret print write_text lift files stdout].
  rewrite Hc. cbv beta iota zeta.
  eexists _, _, _. reflexivity.
Qed.

Lemma generated_config (self : MCPSkillGenerator) (w : world) :
  fst (generate self w) = inr tt
  /\ files (snd (generate self w)) !! path_join (output_dir self) "mcp-config.json"
     = Some (dumps (JObj (mcp_config self))).
Proof.
  destruct (generate_files self w) as [content [package [out Hg]]].
  rewrite Hg. split; [reflexivity|]. cbn [snd files].
  rewrite lookup_insert_ne.
  - apply lookup_insert_eq.
  - intros Heq. apply path_join_inj in Heq. discriminate.
Qed.



End Codec.

Import Samples PyJsonFacts.





End PersistFacts.

(** ** Computed facts about the sample data *)

Module SampleFacts.
Import Text World Samples MoreSamples.

Lemma servers_file_present :
  files servers_world !! "servers.json" = Some (PyJson.dumps (JObj weather_config)).
Proof. vm_compute. reflexivity. Qed.

Lemma servers_file_loads :
  @loads python_json (PyJson.dumps (JObj weather_config)) = inr (JObj weather_config).
Proof. vm_compute. reflexivity. Qed.

Lemma array_file_present :
  files array_world !! "array.json" = Some (PyJson.dumps (JArr [JStr "command"])).
Proof. vm_compute. reflexivity. Qed.

Lemma array_file_loads :
  @loads python_json (PyJson.dumps (JArr [JStr "command"])) = inr (JArr [JStr "command"]).
Proof. vm_compute. reflexivity. Qed.

Lemma weather_process_config :
  @Executor.loaded_config python_json weather_process
  = Some (inr (JObj weather_fields)).
Proof. vm_compute. reflexivity. Qed.





End SampleFacts.

(** * Further properties *)

(** ** The parser and its caller *)

Module ConfigMore.
Import Text Config DictFacts World Generator Samples MoreSamples PyJsonFacts.

Lemma collect_none_kept (server_name : option string) (entries : dict) :
  forall servers,
    (forall entry, In entry entries -> kept server_name entry = false) ->
    collect_servers server_name entries servers = inr servers.
Proof.
  induction entries as [|[key body] entries IH]; intros servers Hnone; simpl.
  - reflexivity.
  - pose proof (Hnone (key, body) (or_introl eq_refl)) as Hk.
    unfold kept in Hk. simpl in Hk. apply negb_false_iff in Hk. rewrite Hk.
    apply IH. intros entry Hin. apply Hnone. now right.
Qed.

Lemma kept_other_key (s : string) (entries : dict) :
  s <> "" -> ~ In s (map fst entries) ->
  forall entry, In entry entries -> kept (Some s) entry = false.
Proof.
  intros Hs Hnot entry Hin. rewrite ConfigFacts.kept_filter_name by assumption.
  apply String.eqb_neq. intros Heq. apply Hnot. subst s.
  now apply in_map.
Qed.

(** X1. A JSON object without [mcpServers] that has [command] or
    [url] is returned as the one record, with its fields unchanged (no
    [name] is added), and the filter name is ignored. *)
Theorem parse_single_service_unchanged (fields : dict) (server_name : option string) :
  dict_get "mcpServers" fields = None ->
  dict_get "command" fields <> None \/ dict_get "url" fields <> None ->
  parse_mcp_config_data (JObj fields) server_name = inr [JObj fields]
  /\ parse_mcp_config_data (JObj fields) server_name
     = parse_mcp_config_data (JObj fields) None.
Proof.
  intros Hs Hc.
  assert (Hp : forall sn, parse_mcp_config_data (JObj fields) sn = inr [JObj fields]).
  { intros sn. unfold parse_mcp_config_data. simpl. rewrite Hs. simpl.
    destruct (dict_get "command" fields); [reflexivity|]. simpl.
    destruct (dict_get "url" fields); [reflexivity|].
    destruct Hc as [Hc|Hc]; contradiction. }
  now rewrite !Hp.
Qed.

Lemma parse_single_service_unchanged_witness :
  parse_mcp_config_data (JObj [("url", JStr "https://mcp.example/sse")]) (Some "other")
  = inr [JObj [("url", JStr "https://mcp.example/sse")]].
Proof.
  apply (parse_single_service_unchanged
           [("url", JStr "https://mcp.example/sse")] (Some "other") eq_refl).
  right. discriminate.
Defined.

(** X2. A non-empty filter name that is no key of the [mcpServers] map
    gives the empty list, whatever the bodies and the other top-level
    fields are. *)
Theorem parse_unknown_server_empty (fields servers : dict) (s : string) :
  dict_get "mcpServers" fields = Some (JObj servers) ->
  s <> "" ->
  ~ In s (map fst servers) ->
  parse_mcp_config_data (JObj fields) (Some s) = inr [].
Proof.
  intros Hget Hs Hnot. unfold parse_mcp_config_data. simpl. rewrite Hget. simpl.
  apply collect_none_kept. now apply kept_other_key.
Qed.

Lemma parse_unknown_server_empty_witness :
  parse_mcp_config_data
    (JObj [("command", JStr "top"); ("mcpServers", JObj [("a", JStr "not a body")])])
    (Some "github")
  = inr [].
Proof.
  apply (parse_unknown_server_empty
           [("command", JStr "top"); ("mcpServers", JObj [("a", JStr "not a body")])]
           [("a", JStr "not a body")] "github" eq_refl).
  - discriminate.
  - simpl. intros [H|[]]. discriminate.
Defined.





Section Convert.
Context `{C : Codec}.

(** X4. Asked for a server that the [mcpServers] map does not have,
    [convert_mcp_to_skill] prints one line naming it, writes no file
    and returns without raising. *)
Theorem convert_unknown_server (w : world) (mcp_config_path output_dir text s : string)
    (fields servers : dict) :
  files w !! mcp_config_path = Some text ->
  loads text = inr (JObj fields) ->
  dict_get "mcpServers" fields = Some (JObj servers) ->
  s <> "" ->
  ~ In s (map fst servers) ->
  convert_mcp_to_skill mcp_config_path output_dir (Some s) w
  = (inr tt,
     {| files := files w;
        stdout := stdout w ++ ["Error: Server '" +:+ s +:+ "' not found in config"] |}).
Proof.
  intros Hfile Hload Hget Hs Hnot.
  unfold convert_mcp_to_skill.
  cbv beta iota zeta delta [m_bind read_files lift].
  unfold parse_mcp_config. rewrite Hfile, Hload.
  cbv beta iota delta [Py.bind].
  rewrite (parse_unknown_server_empty fields servers s Hget Hs Hnot).
  cbv beta iota. unfold truthy.
  apply String.eqb_neq in Hs. rewrite Hs. reflexivity.
Qed.

(** X5. A document that is not a JSON object never yields a skill:
    whether the parser rejects it or returns it as a record,
    [convert_mcp_to_skill] raises and leaves the files and the output
    as they were. *)
Theorem convert_rejects_non_objects (w : world)
    (mcp_config_path output_dir text : string) (data : json)
    (server_name : option string) :
  files w !! mcp_config_path = Some text ->
  loads text = inr data ->
  is_obj data = false ->
  exists e, convert_mcp_to_skill mcp_config_path output_dir server_name w = (inl e, w).
Proof.
  intros Hfile Hload Hobj.
  unfold convert_mcp_to_skill.
  cbv beta iota zeta delta [m_bind read_files lift].
  unfold parse_mcp_config. rewrite Hfile, Hload.
  cbv beta iota delta [Py.bind].
  destruct data as [| b | z | s | xs | fields]; try discriminate;
    try (eexists; reflexivity).
  - unfold parse_mcp_config_data. cbn [contains Py.bind ret].
    destruct (str_contains "mcpServers" s); cbn [Py.bind getitem raise];
      [eexists; reflexivity|].
    destruct (str_contains "command" s); cbn [Py.bind ret].
    + cbn [generate_all]. cbv beta iota zeta delta [m_bind lift get raise].
      eexists; reflexivity.
    + destruct (str_contains "url" s); cbn [Py.bind ret].
      * cbn [generate_all]. cbv beta iota zeta delta [m_bind lift get raise].
        eexists; reflexivity.
      * eexists; reflexivity.
  - unfold parse_mcp_config_data. cbn [contains Py.bind ret].
    destruct (existsb (fun v => eq_str v "mcpServers") xs);
      cbn [Py.bind getitem raise]; [eexists; reflexivity|].
    destruct (existsb (fun v => eq_str v "command") xs); cbn [Py.bind ret].
    + cbn [generate_all]. cbv beta iota zeta delta [m_bind lift get raise].
      eexists; reflexivity.
    + destruct (existsb (fun v => eq_str v "url") xs); cbn [Py.bind ret].
      * cbn [generate_all]. cbv beta iota zeta delta [m_bind lift get raise].
        eexists; reflexivity.
      * eexists; reflexivity.
Qed.

End Convert.

Lemma convert_unknown_server_witness :
  @convert_mcp_to_skill python_json "servers.json" "skills" (Some "github")
    servers_world
  = (inr tt,
     {| files := {[ "servers.json" := PyJson.dumps (JObj weather_config) ]};
        stdout := ["Error: Server 'github' not found in config"] |}).
Proof.
  assert (Hnot : ~ In "github" (map fst weather_servers)).
  { simpl. intros [H|[]]. discriminate. }
  assert (Hne : "github" <> "") by discriminate.
  exact (@convert_unknown_server python_json
           servers_world
           "servers.json" "skills" (PyJson.dumps (JObj weather_config)) "github"
           weather_config weather_servers
           SampleFacts.servers_file_present
           SampleFacts.servers_file_loads eq_refl Hne Hnot).
Defined.

Lemma convert_rejects_non_objects_witness :
  exists e,
    @convert_mcp_to_skill python_json "array.json" "skills" None array_world
    = (inl e, array_world).
Proof.
  exact (@convert_rejects_non_objects python_json array_world
           "array.json" "skills" (PyJson.dumps (JArr [JStr "command"]))
           (JArr [JStr "command"]) None
           SampleFacts.array_file_present SampleFacts.array_file_loads eq_refl).
Defined.

End ConfigMore.

(** ** The generator *)

Module GeneratorMore.
Import Budget Text PyRepr World Generator Layout BudgetFacts Samples.

Lemma skill_md_of_content (self : MCPSkillGenerator) :
  skill_md_content self [example_tool] = inr (skill_md_of self).
Proof.
  apply GeneratorFacts.skill_md_content_lines. exact PersistFacts.savings_one_tool.
Qed.

Lemma quot_savings_nonneg (n : Z) :
  10 <= n -> 0 <= trunc_savings n <= 99 /\ (trunc_savings n = 0 <-> n = 10).
Proof.
  intros Hn. unfold trunc_savings.
  rewrite Z.quot_div_nonneg by lia.
  assert (Hlo : 0 <= (100 * n - 1000) / n) by (apply Z.div_pos; lia).
  assert (Hhi : (100 * n - 1000) / n < 100)
    by (apply Z.div_lt_upper_bound; lia).
  split; [lia|]. split.
  - intros H0. apply Z.div_small_iff in H0; lia.
  - intros ->. reflexivity.
Qed.

Lemma quot_savings_neg (n : Z) :
  1 <= n < 10 -> -900 <= trunc_savings n < 0.
Proof.
  intros Hn. split; [|now apply trunc_savings_negative].
  unfold trunc_savings.
  assert (H : 100 * n - 1000 = - (1000 - 100 * n)) by lia.
  rewrite H, Z.quot_opp_l by lia.
  rewrite Z.quot_div_nonneg by lia.
  assert ((1000 - 100 * n) / n < 901); [|lia].
  apply Z.div_lt_upper_bound; lia.
Qed.

(** X6. For 1 to 20000 tools the savings figure lies between -900 and
    99: it is negative exactly for fewer than 10 tools, zero exactly
    for 10 tools, and never reaches 100. *)
Theorem savings_percent_range (n : Z) :
  1 <= n <= checked_bound ->
  exists s,
    savings_percent n = inr s
    /\ -900 <= s <= 99
    /\ (s < 0 <-> n < 10)
    /\ (s = 0 <-> n = 10).
Proof.
  intros Hn. exists (trunc_savings n).
  split; [now apply savings_percent_checked|].
  destruct (Z_lt_le_dec n 10) as [Hlt|Hge].
  - pose proof (quot_savings_neg n ltac:(lia)) as Hneg.
    split; [lia|]. split; [split; lia|split; lia].
  - pose proof (quot_savings_nonneg n Hge) as [Hr Hz].
    split; [lia|]. split; [split; lia|exact Hz].
Qed.

Lemma savings_percent_range_witness :
  exists s, savings_percent 10 = inr s /\ -900 <= s <= 99
    /\ (s < 0 <-> 10 < 10) /\ (s = 0 <-> 10 = 10).
Proof.
  apply savings_percent_range. unfold checked_bound. lia.
Defined.

Section Files.
Context `{C : Codec}.

(** A run of [generate]: it succeeds and writes the four files. *)
Lemma generate_result (self : MCPSkillGenerator) (w : world) :
  exists out,
    generate self w
    = (inr tt, {| files := skill_files self (files w); stdout := out |}).
Proof.
  pose proof (skill_md_of_content self) as Hc.
  cbv beta iota zeta delta [generate _get_mcp_tools _generate_skill_md
                            _generate_executor _generate_config
                            _generate_package_json
                            m_bind m_ret print write_text lift files stdout].
  rewrite Hc. cbv beta iota zeta.
  eexists. reflexivity.
Qed.

Lemma skill_files_lookup (self : MCPSkillGenerator) (m : gmap string string)
    (path : string) :
  skill_files self m !! path
  = if decide (path_join (output_dir self) "package.json" = path)
    then Some (dumps (package_of self))
    else if decide (path_join (output_dir self) "mcp-config.json" = path)
    then Some (dumps (JObj (mcp_config self)))
    else if decide (path_join (output_dir self) "executor.py" = path)
    then Some executor_code
    else if decide (path_join (output_dir self) "SKILL.md" = path)
    then Some (skill_md_of self)
    else m !! path.
Proof. unfold skill_files. now rewrite !lookup_insert. Qed.

Lemma file_names_differ (dir a b : string) :
  a <> b -> path_join dir a <> path_join dir b.
Proof.
  intros Hne Heq. apply Hne. now apply PersistFacts.path_join_inj in Heq.
Qed.


(** X8. Generating again changes no file: a second run of [generate]
    in the same directory leaves the files exactly as the first run
    left them. *)
Theorem generate_idempotent (self : MCPSkillGenerator) (w : world) :
  files (snd (generate self (snd (generate self w))))
  = files (snd (generate self w)).
Proof.
  destruct (generate_result self w) as [out Hg]. rewrite Hg. cbn [snd].
  destruct (generate_result self
              {| files := skill_files self (files w); stdout := out |})
    as [out' Hg'].
  rewrite Hg'. cbn [snd files].
  apply map_eq. intros path. rewrite !skill_files_lookup.
  repeat (destruct (decide _); [reflexivity|]). reflexivity.
Qed.


End Files.


End GeneratorMore.

(** ** The executor *)

Module ExecutorMore.
Import Text Trace Executor Layout Samples MoreSamples ExecutorFacts.

Section Run.
Context `{C : Codec}.

(** A run that gets its session: the body between opening and closing,
    and an exception reported after closing. *)
Lemma main_in_session (args : Args) (p : process) (config : json) (t : transport)
    (session : ClientSession) :
  loaded_config p = Some (inr config) -> HAS_MCP p = true ->
  transport_of config = inr t -> connect p t = inr session ->
  main args p
  = match snd (dispatch args session) with
    | Done _ => ([Opened t] ++ fst (dispatch args session) ++ [Closed], 0)
    | Exited code => ([Opened t] ++ fst (dispatch args session) ++ [Closed], code)
    | Raised e =>
        (([Opened t] ++ fst (dispatch args session) ++ [Closed]) ++ [StderrError e], 1)
    end.
Proof.
  intros Hcfg Hmcp Ht Hc. unfold main. rewrite Hcfg, Hmcp. simpl negb. cbv iota.
  pose proof (mcp_connection_events (connect p) config (dispatch args)) as He.
  rewrite Ht, Hc in He. rewrite He.
  destruct (snd (dispatch args session)); reflexivity.
Qed.




(** X10. [--describe NAME] on a session that reports its catalog: for
    a name that is not in the catalog the run prints
    [Tool not found: NAME] on standard error, nothing on standard
    output, closes the session and exits with code 1; for a name that
    is in it, the run prints the descriptor and exits with code 0. *)
Theorem describe_run (args : Args) (p : process) (config : json) (t : transport)
    (session : ClientSession) (tools : list Tool) (tool_name : string) :
  arg_list args = false ->
  given (arg_describe args) = Some tool_name ->
  loaded_config p = Some (inr config) -> HAS_MCP p = true ->
  transport_of config = inr t -> connect p t = inr session ->
  session_list_tools session = inr tools ->
  (~ In tool_name (map name tools) ->
     main args p
     = ([Opened t; Performed (OpDescribe tool_name);
         Stderr ("Tool not found: " +:+ tool_name); Closed], 1))
  /\ (forall schema, find_tool tools tool_name = Some schema ->
      main args p
      = ([Opened t; Performed (OpDescribe tool_name); Stdout (dumps schema); Closed],
         0)).
Proof.
  intros Hl Hd Hcfg Hmcp Ht Hc Hlist.
  rewrite (main_in_session args p config t session Hcfg Hmcp Ht Hc).
  unfold dispatch. rewrite Hl, Hd. unfold describe_tool. rewrite Hlist. simpl.
  split.
  - intros Hnot. now rewrite find_tool_absent.
  - intros schema Hf. now rewrite Hf.
Qed.




Lemma listing_well_formed (tools : list Tool) :
  PyJson.well_formed (listing tools) = true.
Proof.
  unfold listing. cbn [PyJson.well_formed].
  induction tools as [|tool tools IH]; [reflexivity|].
  cbn [map forallb]. rewrite IH.
  destruct (description tool); reflexivity.
Qed.

(** X14. [--list] prints, as one JSON text, the array of the name and
    description of every tool in the order the session reports them,
    and exits with code 0; [--describe] and [--call] given beside it
    are ignored. The text is read back by [json.loads] as that array. *)
Theorem list_run (L : CodecLaws C) (args : Args) (p : process) (config : json)
    (t : transport) (session : ClientSession) (tools : list Tool) :
  arg_list args = true ->
  loaded_config p = Some (inr config) -> HAS_MCP p = true ->
  transport_of config = inr t -> connect p t = inr session ->
  session_list_tools session = inr tools ->
  main args p
  = ([Opened t; Performed OpList; Stdout (dumps (listing tools)); Closed], 0)
  /\ loads (dumps (listing tools)) = inr (listing tools)
  /\ exists entries,
       listing tools = JArr entries
       /\ length entries = length tools
       /\ forall i tool,
            nth_error tools i = Some tool ->
            exists entry,
              nth_error entries i = Some entry
              /\ getitem entry "name" = inr (JStr (name tool))
              /\ getitem entry "description" = inr (opt_str (description tool)).
Proof.
  intros Hl Hcfg Hmcp Ht Hc Hlist.
  rewrite (main_in_session args p config t session Hcfg Hmcp Ht Hc).
  unfold dispatch. rewrite Hl. unfold list_tools. rewrite Hlist. simpl.
  split; [reflexivity|]. split.
  - apply loads_dumps. apply listing_well_formed.
  - eexists. split; [reflexivity|]. split; [apply length_map|].
    intros i tool Hnth. eexists. split; [|split].
    + rewrite nth_error_map, Hnth. reflexivity.
    + reflexivity.
    + reflexivity.
Qed.


End Run.

(** The command lines [--describe lookup], [--describe forecast] and
    [--list --describe forecast], and a server whose tool call fails. *)
Lemma describe_run_witness :
  @main python_json
    {| arg_call := None; arg_describe := Some "lookup"; arg_list := false |}
    weather_process
  = ([Opened (Stdio (JStr "wx-server") (JArr [JStr "--mode"; JStr "json"]) JNull);
      Performed (OpDescribe "lookup"); Stderr "Tool not found: lookup"; Closed], 1).
Proof.
  destruct (@describe_run python_json
              {| arg_call := None; arg_describe := Some "lookup"; arg_list := false |}
              weather_process (JObj weather_fields)
              (Stdio (JStr "wx-server") (JArr [JStr "--mode"; JStr "json"]) JNull)
              weather_session [forecast; alerts] "lookup"
              eq_refl eq_refl SampleFacts.weather_process_config eq_refl eq_refl
              eq_refl eq_refl) as [Habsent _].
  apply Habsent. simpl. intros [H|[H|[]]]; discriminate.
Defined.


Lemma list_run_witness :
  @main python_json
    {| arg_call := None; arg_describe := Some "forecast"; arg_list := true |}
    weather_process
  = ([Opened (Stdio (JStr "wx-server") (JArr [JStr "--mode"; JStr "json"]) JNull);
      Performed OpList; Stdout (PyJson.dumps (listing [forecast; alerts])); Closed],
     0).
Proof.
  destruct (@list_run python_json PyJsonFacts.python_json_laws
              {| arg_call := None; arg_describe := Some "forecast";
                 arg_list := true |}
              weather_process (JObj weather_fields)
              (Stdio (JStr "wx-server") (JArr [JStr "--mode"; JStr "json"]) JNull)
              weather_session [forecast; alerts]
              eq_refl SampleFacts.weather_process_config eq_refl eq_refl eq_refl
              eq_refl) as [Hmain _].
  exact Hmain.
Defined.


End ExecutorMore.

(** ** From generation to use, for every service *)

Module PipelineMore.
Import Text PyRepr World Generator Layout Config DictFacts StringFacts Trace
       Samples MoreSamples PyJsonFacts.

Lemma transport_default (fields : dict) :
  eq_str (dict_get_default "type" (JStr "stdio") fields) "http"
  = eq_str (dict_get_default "type" JNull fields) "http".
Proof. unfold dict_get_default. destruct (dict_get "type" fields); reflexivity. Qed.

(** X16. The transport the document announces is the one the executor
    uses: whenever the executor gets a transport from a configuration,
    an HTTP channel to [url] is announced as [HTTP (url)] and a local
    process as [stdio (local process)]. *)
Theorem announced_transport_is_used (fields : dict) (dir : string) (t : transport) :
  Executor.transport_of (JObj fields) = inr t ->
  _get_transport_type (__init__ fields dir)
  = match t with
    | Http url => "HTTP (" +:+ py_str url +:+ ")"
    | Stdio _ _ _ => "stdio (local process)"
    end.
Proof.
  unfold Executor.transport_of, _get_transport_type. simpl.
  rewrite transport_default.
  destruct (eq_str (dict_get_default "type" JNull fields) "http").
  - unfold dict_get_default.
    destruct (dict_get "url" fields) as [url|]; simpl; [|discriminate].
    intros Ht. injection Ht as <-. reflexivity.
  - destruct (dict_get "command" fields) as [command|]; simpl; [|discriminate].
    intros Ht. injection Ht as <-. reflexivity.
Qed.

Lemma announced_transport_is_used_witness :
  _get_transport_type
    (__init__ [("type", JStr "http"); ("url", JStr "https://mcp.example/sse")] "out")
  = "HTTP (https://mcp.example/sse)".
Proof.
  exact (announced_transport_is_used
           [("type", JStr "http"); ("url", JStr "https://mcp.example/sse")] "out"
           (Http (JStr "https://mcp.example/sse")) eq_refl).
Defined.


Section Pipeline.
Context `{C : Codec}.











End Pipeline.






End PipelineMore.
